(** * Land-cover / land-use analysis with Sentinel-2: core pipeline

    Shallow embedding of the analytic core of the repository:
    [calculate_ndvi.py], [urban_extraction.py] (built-up index),
    [change_detection.py] and [land_cover_classification.py].

    Modelling choices.
    - A pixel value of a floating-point numpy array is an element of [fv]:
      a finite number (an exact rational: rounding to float32 is not
      modelled), a signed infinity or NaN.  The IEEE rules for [+], [-],
      [/], [<], [<=], [==] and [!=] on the special values are written out.
    - A 2-D numpy array is a list of rows.  Binary element-wise operations
      follow numpy broadcasting for 2-D operands: two extents are
      compatible when they are equal or one of them is 1, otherwise numpy
      raises [ValueError].
    - Raster file I/O is out of scope: a function that reads band 1 of a
      file takes the array, and a function that writes a file returns the
      array together with the [nodata] value it puts into the profile. *)

From Stdlib Require Import QArith Lqa ZArith Arith Lia List Bool.
Import ListNotations.
Open Scope nat_scope.

(** ** Floating-point pixel values *)

Inductive fv :=
| Fin (q : Q)
| Inf (neg : bool)
| NaN.

Definition Qltb (x y : Q) : bool := negb (Qle_bool y x).

Definition is_finite (v : fv) : bool :=
  match v with Fin _ => true | _ => false end.

Definition is_nan (v : fv) : bool :=
  match v with NaN => true | _ => false end.

(** IEEE addition. *)
Definition fadd (x y : fv) : fv :=
  match x, y with
  | Fin a, Fin b => Fin (a + b)
  | Fin _, Inf s | Inf s, Fin _ => Inf s
  | Inf s, Inf t => if Bool.eqb s t then Inf s else NaN
  | _, _ => NaN
  end.

Definition fneg (x : fv) : fv :=
  match x with
  | Fin a => Fin (- a)
  | Inf s => Inf (negb s)
  | NaN => NaN
  end.

Definition fsub (x y : fv) : fv := fadd x (fneg y).

(** IEEE division; the zero divisor is taken as +0. *)
Definition fdiv (x y : fv) : fv :=
  match x, y with
  | Fin a, Fin b =>
      if Qeq_bool b 0 then (if Qeq_bool a 0 then NaN else Inf (Qltb a 0))
      else Fin (a / b)
  | Fin _, Inf _ => Fin 0
  | Inf s, Fin b => Inf (xorb s (Qltb b 0))
  | _, _ => NaN
  end.

(** IEEE comparisons: every comparison with NaN is false, except [!=]. *)
Definition feq (x y : fv) : bool :=
  match x, y with
  | Fin a, Fin b => Qeq_bool a b
  | Inf s, Inf t => Bool.eqb s t
  | _, _ => false
  end.

Definition fne (x y : fv) : bool := negb (feq x y).

Definition flt (x y : fv) : bool :=
  match x, y with
  | Fin a, Fin b => Qltb a b
  | Fin _, Inf t => negb t
  | Inf s, Fin _ => s
  | Inf s, Inf t => s && negb t
  | _, _ => false
  end.

Definition fle (x y : fv) : bool := flt x y || feq x y.

Definition fgt (x y : fv) : bool := flt y x.
Definition fge (x y : fv) : bool := fle y x.

(** ** Two-dimensional arrays and numpy broadcasting *)

Definition grid (A : Type) := list (list A).

Definition width {A} (X : grid A) : nat :=
  match X with [] => 0 | r :: _ => length r end.

Definition shape {A} (X : grid A) : nat * nat := (length X, width X).

(** The list of rows is a well-formed array: all rows have one length. *)
Definition rect {A} (X : grid A) : Prop :=
  Forall (fun r => length r = width X) X.

Definition get {A} (d : A) (X : grid A) (i j : nat) : A :=
  nth j (nth i X []) d.

Inductive exn := ValueError | IndexError.

Inductive result (A : Type) :=
| Ok (a : A)
| Err (e : exn).
Arguments Ok {A} a.
Arguments Err {A} e.

Definition bind {A B} (m : result A) (k : A -> result B) : result B :=
  match m with Ok a => k a | Err e => Err e end.

Notation "x <- m ;; k" := (bind m (fun x => k))
  (at level 61, m at next level, right associativity).

(** Broadcast of one extent. *)
Definition bcast_dim (n m : nat) : option nat :=
  if n =? m then Some n
  else if n =? 1 then Some m
  else if m =? 1 then Some n
  else None.

(** Index into an operand of extent [n] (stretched when [n = 1]). *)
Definition bidx (n i : nat) : nat := if n =? 1 then 0 else i.

Definition bget {A} (d : A) (X : grid A) (i j : nat) : A :=
  get d X (bidx (length X) i) (bidx (width X) j).

(** The [h] x [w] array whose pixel [(i, j)] is [g i j]. *)
Definition tabulate {A} (h w : nat) (g : nat -> nat -> A) : grid A :=
  map (fun i => map (fun j => g i j) (seq 0 w)) (seq 0 h).

(** [f X Y] for a numpy element-wise binary operator [f]. *)
Definition bin_op {A B C} (da : A) (db : B) (f : A -> B -> C)
    (X : grid A) (Y : grid B) : result (grid C) :=
  match bcast_dim (length X) (length Y), bcast_dim (width X) (width Y) with
  | Some h, Some w => Ok (tabulate h w (fun i j => f (bget da X i j) (bget db Y i j)))
  | _, _ => Err ValueError
  end.

(** An operator with a scalar operand never fails. *)
Definition scalar_op {A C} (f : A -> C) (X : grid A) : grid C :=
  map (map f) X.

Definition F0 : fv := Fin 0.

(** ** Spectral indices *)

Record written (A : Type) := { data : grid A; nodata : A }.
Arguments data {A} w.
Arguments nodata {A} w.

(** [calculate_ndvi] (calculate_ndvi.py): returns the NDVI array and the
    [nodata] written into the output profile.  The bands are already upcast
    to float32.
<<
    ndvi = np.where((nir + red) != 0, (nir - red) / (nir + red), 0)
    profile.update(dtype=rasterio.float32, count=1, nodata=-9999)
>> *)
Definition calculate_ndvi (red nir : grid fv) : result (written fv) :=
  s1 <- bin_op F0 F0 fadd nir red ;;
  let cond := scalar_op (fun v => fne v F0) s1 in
  d <- bin_op F0 F0 fsub nir red ;;
  s2 <- bin_op F0 F0 fadd nir red ;;
  q <- bin_op F0 F0 fdiv d s2 ;;
  ndvi <- bin_op false F0 (fun c v => if c then v else F0) cond q ;;
  Ok {| data := ndvi; nodata := Fin (-9999) |}.

(** [calculate_built_up_index] (urban_extraction.py): [swir] is the SWIR
    band after [resample_to_match]; returns [(bui, ndvi, ndbi)] and the
    [nodata] of the written BUI file. *)
Definition calculate_built_up_index (red nir swir : grid fv)
    : result (written fv * grid fv * grid fv) :=
  s1 <- bin_op F0 F0 fadd nir red ;;
  let c1 := scalar_op (fun v => fne v F0) s1 in
  d1 <- bin_op F0 F0 fsub nir red ;;
  s1' <- bin_op F0 F0 fadd nir red ;;
  q1 <- bin_op F0 F0 fdiv d1 s1' ;;
  ndvi <- bin_op false F0 (fun c v => if c then v else F0) c1 q1 ;;
  s2 <- bin_op F0 F0 fadd swir nir ;;
  let c2 := scalar_op (fun v => fne v F0) s2 in
  d2 <- bin_op F0 F0 fsub swir nir ;;
  s2' <- bin_op F0 F0 fadd swir nir ;;
  q2 <- bin_op F0 F0 fdiv d2 s2' ;;
  ndbi <- bin_op false F0 (fun c v => if c then v else F0) c2 q2 ;;
  bui <- bin_op F0 F0 fsub ndbi ndvi ;;
  Ok ({| data := bui; nodata := Fin (-9999) |}, ndvi, ndbi).

(** ** Change detection (change_detection.py) *)

(** numpy boolean-mask assignment [X[m] = v] of a scalar: the mask must
    have the shape of [X], otherwise numpy raises [IndexError]. *)
Definition mask_assign {A} (d : A) (m : grid bool) (v : A) (X : grid A)
    : result (grid A) :=
  if (length m =? length X) && (width m =? width X) then
    Ok (tabulate (length X) (width X)
          (fun i j => if get false m i j then v else get d X i j))
  else Err IndexError.

(** [calculate_ndvi_difference]: [ndvi_diff = ndvi_2025 - ndvi_2021]. *)
Definition calculate_ndvi_difference (ndvi_2021 ndvi_2025 : grid fv)
    : result (written fv) :=
  ndvi_diff <- bin_op F0 F0 fsub ndvi_2025 ndvi_2021 ;;
  Ok {| data := ndvi_diff; nodata := Fin (-9999) |}.

(** [classify_changes] on a uint8 output ([np.zeros_like]).
<<
    changes[ndvi_diff < -threshold] = 1
    changes[ndvi_diff > threshold] = 2
    changes[(ndvi_diff >= -threshold) & (ndvi_diff <= threshold)] = 3
>> *)
Definition classify_changes (ndvi_diff : grid fv) (threshold : fv)
    : result (grid Z) :=
  let changes := scalar_op (fun _ => 0%Z) ndvi_diff in
  changes <- mask_assign 0%Z
               (scalar_op (fun d => flt d (fneg threshold)) ndvi_diff) 1%Z changes ;;
  changes <- mask_assign 0%Z
               (scalar_op (fun d => fgt d threshold) ndvi_diff) 2%Z changes ;;
  m <- bin_op false false andb
         (scalar_op (fun d => fge d (fneg threshold)) ndvi_diff)
         (scalar_op (fun d => fle d threshold) ndvi_diff) ;;
  mask_assign 0%Z m 3%Z changes.

Definition default_threshold : fv := Fin (1 # 10).

(** [compare_classifications] on two uint8 label rasters.
<<
    change_matrix = np.zeros_like(class_2021, dtype=np.uint8)
    change_matrix[class_2021 != class_2025] = 1
    profile.update(dtype=rasterio.uint8, count=1, nodata=0)
>> *)
Definition compare_classifications (class_2021 class_2025 : grid Z)
    : result (written Z) :=
  let change_matrix := scalar_op (fun _ => 0%Z) class_2021 in
  m <- bin_op 0%Z 0%Z (fun a b => negb (Z.eqb a b)) class_2021 class_2025 ;;
  change_matrix <- mask_assign 0%Z m 1%Z change_matrix ;;
  Ok {| data := change_matrix; nodata := 0%Z |}.

(** ** Land-cover classification (land_cover_classification.py) *)

(** The window of [prepare_classification_data], as rasterio's
    [Window(col_off, row_off, width, height)]; Python integers. *)
Definition classification_window (height width window_size : Z)
    : Z * Z * Z * Z :=
  let center_y := (height / 2)%Z in
  let center_x := (width / 2)%Z in
  let half_win := (window_size / 2)%Z in
  let y1 := Z.max (center_y - half_win) 0 in
  let y2 := Z.min (center_y + half_win) height in
  let x1 := Z.max (center_x - half_win) 0 in
  let x2 := Z.min (center_x + half_win) width in
  (x1, y1, (x2 - x1)%Z, (y2 - y1)%Z).

(** [src.read(1, window=window)] for a window inside the grid. *)
Definition read_window {A} (X : grid A) (win : Z * Z * Z * Z) : grid A :=
  let '(x1, y1, w, h) := win in
  map (fun r => firstn (Z.to_nat w) (skipn (Z.to_nat x1) r))
      (firstn (Z.to_nat h) (skipn (Z.to_nat y1) X)).

(** [stacked.reshape(n_bands, -1).T]: one feature vector per pixel, in
    row-major pixel order. *)
Definition pixel_vectors (stacked : list (grid fv)) (n : nat) : list (list fv) :=
  map (fun p => map (fun B => nth p (concat B) F0) stacked) (seq 0 n).

(** [~np.any(np.isnan(reshaped) | (reshaped == 0), axis=1)]. *)
Definition valid_pixel (px : list fv) : bool :=
  negb (existsb (fun v => is_nan v || feq v F0) px).

Record prepared := {
  valid_data : list (list fv);
  valid_pixels : list bool;
  original_shape : nat * nat }.

(** The windowed band stack of [prepare_classification_data] (the first
    band gives the grid size). *)
Definition classification_stack (bands : list (grid fv)) (window_size : Z)
    : list (grid fv) :=
  let B0 := hd [] bands in
  let win := classification_window (Z.of_nat (length B0))
               (Z.of_nat (width B0)) window_size in
  map (fun B => read_window B win) bands.

(** [prepare_classification_data band_paths None window_size] on the band
    arrays. *)
Definition prepare_classification_data (bands : list (grid fv))
    (window_size : Z) : prepared :=
  let stacked := classification_stack bands window_size in
  let W0 := hd [] stacked in
  let height := length W0 in
  let width := width W0 in
  let reshaped := pixel_vectors stacked (height * width) in
  let valid := map valid_pixel reshaped in
  {| valid_data := filter valid_pixel reshaped;
     valid_pixels := valid;
     original_shape := (height, width) |}.

(** numpy [full[m] = vals] on a 1-D array: [vals] needs one entry per true
    mask position (or a single entry, broadcast), else [ValueError]. *)
Fixpoint scatter (m : list bool) (vals : list Z) (full : list Z) : list Z :=
  match m, full with
  | b :: m', x :: full' =>
      if b then
        match vals with
        | v :: vals' => v :: scatter m' vals' full'
        | [] => x :: scatter m' [] full'
        end
      else x :: scatter m' vals full'
  | _, _ => full
  end.

Definition masked_assign (m : list bool) (vals : list Z) (full : list Z)
    : result (list Z) :=
  let n := count_occ Bool.bool_dec m true in
  if negb (length m =? length full) then Err IndexError
  else if length vals =? n then Ok (scatter m vals full)
  else match vals with
       | [v] => Ok (scatter m (repeat v n) full)
       | _ => Err ValueError
       end.

(** Assignment into a uint8 array wraps modulo 256. *)
Definition to_uint8 (z : Z) : Z := Z.modulo z 256.

(** [full_map.reshape(original_shape)]. *)
Definition reshape (h w : nat) (l : list Z) : grid Z :=
  tabulate h w (fun i j => nth (i * w + j) l 0%Z).

(** [create_classification_map]: [labels] are the cluster ids of the valid
    pixels, in pixel order.
<<
    full_map = np.zeros(original_shape[0] * original_shape[1], dtype=np.uint8)
    full_map[valid_pixels] = labels + 1
>> *)
Definition create_classification_map (labels : list Z) (valid : list bool)
    (original_shape : nat * nat) : result (written Z) :=
  let '(h, w) := original_shape in
  full_map <- masked_assign valid (map (fun l => to_uint8 (l + 1)) labels)
                (repeat 0%Z (h * w)) ;;
  Ok {| data := reshape h w full_map; nodata := 0%Z |}.

(** K-means itself is scikit-learn's: it is a parameter here, a function of
    the random generator it is handed (returning the generator's new state),
    of [n_clusters] and [n_init], and of the data.  [check_random_state]
    (scikit-learn) hands over numpy's global generator for [None] and a
    fresh [RandomState(seed)] for an integer. *)
Section Clustering.

Variable rng : Type.
Variable RandomState : Z -> rng.
Variable standard_scale : list (list fv) -> list (list fv).
Variable kmeans_fit_predict :
  rng -> nat -> nat -> list (list fv) -> list Z * rng.

Inductive random_state_param := RSNone | RSInt (seed : Z).

(** The process-wide generator is the state threaded through a run. *)
Definition kmeans_with (rs : random_state_param) (n_clusters n_init : nat)
    (data : list (list fv)) (global : rng) : list Z * rng :=
  match rs with
  | RSNone => kmeans_fit_predict global n_clusters n_init data
  | RSInt s => (fst (kmeans_fit_predict (RandomState s) n_clusters n_init data), global)
  end.

(** [perform_classification]: [KMeans(n_clusters, random_state=42, n_init=10)]
    on the standardised data. *)
Definition perform_classification (data : list (list fv)) (n_clusters : nat)
    (global : rng) : list Z * rng :=
  kmeans_with (RSInt 42) n_clusters 10 (standard_scale data) global.

(** One classification unit of [main]: window, cluster, label map. *)
Definition classify_unit (bands : list (grid fv)) (n_clusters : nat)
    (global : rng) : result (written Z) * rng :=
  let p := prepare_classification_data bands 100 in
  let '(labels, global') := perform_classification (valid_data p) n_clusters global in
  (create_classification_map labels (valid_pixels p) (original_shape p), global').

End Clustering.

(** Number of true entries of a mask ([np.count_nonzero]). *)
Definition count_true (m : list bool) : nat := count_occ Bool.bool_dec m true.

(** A 16 x 16 band holding 1, ..., 256 (row-major). *)
Definition ramp16 : grid fv :=
  tabulate 16 16 (fun i j => Fin (inject_Z (Z.of_nat (i * 16 + j + 1)))).

(** ** Urban extraction and statistics (urban_extraction.py,
    change_detection.py) *)

(** [extract_urban_areas] on a uint8 mask ([np.zeros_like(ndvi, dtype=np.uint8)]).
<<
    urban_mask[(ndvi < ndvi_threshold) & (bui > bui_threshold)] = 1
    urban_mask[ndvi > 0.4] = 2
    urban_mask[(ndvi < 0.1) & (bui < 0.05)] = 3
    urban_mask[(ndvi < 0.2) & (bui < 0.1) & (urban_mask == 0)] = 4
>> *)
Definition extract_urban_areas (ndvi bui : grid fv)
    (ndvi_threshold bui_threshold : fv) : result (grid Z) :=
  let urban_mask := scalar_op (fun _ => 0%Z) ndvi in
  m1 <- bin_op false false andb
          (scalar_op (fun v => flt v ndvi_threshold) ndvi)
          (scalar_op (fun v => fgt v bui_threshold) bui) ;;
  urban_mask <- mask_assign 0%Z m1 1%Z urban_mask ;;
  urban_mask <- mask_assign 0%Z
                  (scalar_op (fun v => fgt v (Fin (4 # 10))) ndvi) 2%Z urban_mask ;;
  m3 <- bin_op false false andb
          (scalar_op (fun v => flt v (Fin (1 # 10))) ndvi)
          (scalar_op (fun v => flt v (Fin (5 # 100))) bui) ;;
  urban_mask <- mask_assign 0%Z m3 3%Z urban_mask ;;
  m4 <- bin_op false false andb
          (scalar_op (fun v => flt v (Fin (2 # 10))) ndvi)
          (scalar_op (fun v => flt v (Fin (1 # 10))) bui) ;;
  m4 <- bin_op false false andb m4 (scalar_op (fun c => Z.eqb c 0) urban_mask) ;;
  mask_assign 0%Z m4 4%Z urban_mask.

(** The defaults [ndvi_threshold=0.3] and [bui_threshold=0.1]. *)
Definition default_ndvi_threshold : fv := Fin (3 # 10).
Definition default_bui_threshold : fv := Fin (1 # 10).

(** [save_urban_areas]: the binary raster written to the file and its
    [nodata].
<<
    urban_binary = np.where(urban_mask == 1, 1, 0).astype(np.uint8)
    profile.update(dtype=rasterio.uint8, count=1, nodata=0)
>> *)
Definition save_urban_areas (urban_mask : grid Z) : written Z :=
  {| data := scalar_op (fun c => if Z.eqb c 1 then 1%Z else 0%Z) urban_mask;
     nodata := 0%Z |}.

(** IEEE multiplication. *)
Definition fmul (x y : fv) : fv :=
  match x, y with
  | Fin a, Fin b => Fin (a * b)
  | Fin a, Inf s | Inf s, Fin a =>
      if Qeq_bool a 0 then NaN else Inf (xorb s (Qltb a 0))
  | Inf s, Inf t => Inf (xorb s t)
  | _, _ => NaN
  end.

(** [(a / b) * 100] for two numpy integers (true division). *)
Definition percent (a b : Z) : fv :=
  fmul (fdiv (Fin (inject_Z a)) (Fin (inject_Z b))) (Fin 100).

Fixpoint insert_sorted (x : Z) (l : list Z) : list Z :=
  match l with
  | [] => [x]
  | y :: t => if Z.leb x y then x :: l else y :: insert_sorted x t
  end.

Fixpoint sort_Z (l : list Z) : list Z :=
  match l with
  | [] => []
  | x :: t => insert_sorted x (sort_Z t)
  end.

(** [np.unique] of a flattened integer array: its distinct values in
    increasing order. *)
Definition np_unique (l : list Z) : list Z := nodup Z.eq_dec (sort_Z l).

(** [np.unique(a, return_counts=True)], zipped. *)
Definition unique_counts (l : list Z) : list (Z * nat) :=
  map (fun v => (v, count_occ Z.eq_dec l v)) (np_unique l).

(** An [np.int64] result: two's complement wrap-around at [2^63]. *)
Definition wrap64 (z : Z) : Z := ((z + 2 ^ 63) mod 2 ^ 64 - 2 ^ 63)%Z.

(** [calculate_urban_statistics]: returns
    [(urban_pixels, urban_percentage, urban_area_km2)].
<<
    unique_classes, counts = np.unique(urban_mask, return_counts=True)
    total_pixels = np.sum(counts)
    urban_pixels = counts[unique_classes == 1][0] if 1 in unique_classes else 0
    urban_percentage = (urban_pixels / total_pixels) * 100
    urban_area_km2 = (urban_pixels * pixel_area_m2) / 1e6
>>
    [urban_pixels] is an [np.int64] when 1 occurs in the mask, so the
    product [urban_pixels * pixel_area_m2] (an int64 [pixel_area_m2]) wraps
    at [2^63]; otherwise it is the Python int 0 and the product is 0, which
    [wrap64] leaves unchanged. *)
Definition calculate_urban_statistics (urban_mask : grid Z) (pixel_area_m2 : Z)
    : Z * fv * fv :=
  let uc := unique_counts (concat urban_mask) in
  let total_pixels := list_sum (map snd uc) in
  let urban_pixels :=
    match find (fun p => Z.eqb (fst p) 1) uc with
    | Some (_, c) => Z.of_nat c
    | None => 0%Z
    end in
  let urban_percentage := percent urban_pixels (Z.of_nat total_pixels) in
  let urban_area_km2 :=
    fdiv (Fin (inject_Z (wrap64 (urban_pixels * pixel_area_m2)))) (Fin 1000000) in
  (urban_pixels, urban_percentage, urban_area_km2).

(** [np.minimum] and [np.maximum]: NaN propagates. *)
Definition fmin2 (x y : fv) : fv :=
  if is_nan x || is_nan y then NaN else if flt y x then y else x.

Definition fmax2 (x y : fv) : fv :=
  if is_nan x || is_nan y then NaN else if flt x y then y else x.

(** [np.min] and [np.max] of a flattened array: a reduction without
    identity, so an empty array raises [ValueError]. *)
Definition np_min (l : list fv) : result fv :=
  match l with [] => Err ValueError | x :: t => Ok (fold_left fmin2 t x) end.

Definition np_max (l : list fv) : result fv :=
  match l with [] => Err ValueError | x :: t => Ok (fold_left fmax2 t x) end.

(** [np.mean] (the sum is exact, so the summation order is immaterial). *)
Definition np_mean (l : list fv) : fv :=
  fdiv (fold_left fadd l F0) (Fin (inject_Z (Z.of_nat (length l)))).

(** The quantities printed by [calculate_change_statistics], in order
    (the standard deviation, printed after the mean, is not modelled). *)
Record change_statistics := {
  diff_min : fv;
  diff_max : fv;
  diff_mean : fv;
  change_counts : list (Z * nat * fv);
  change_total : nat;
  class_changes : option (Z * Z * fv) }.

(** [calculate_change_statistics]: [change_matrix] is [None] when the
    classification rasters are missing.
<<
    np.min(ndvi_diff), np.max(ndvi_diff), np.mean(ndvi_diff)
    unique_changes, counts_changes = np.unique(changes, return_counts=True)
    total_pixels = np.sum(counts_changes)
    percentage = (count / total_pixels) * 100
    changed_pixels = np.sum(change_matrix)
    total_pixels_class = change_matrix.size
    change_percentage = (changed_pixels / total_pixels_class) * 100
    total_pixels_class - changed_pixels
>> *)
Definition calculate_change_statistics (ndvi_diff : grid fv) (changes : grid Z)
    (change_matrix : option (grid Z)) : result change_statistics :=
  let flat := concat ndvi_diff in
  mn <- np_min flat ;;
  mx <- np_max flat ;;
  let uc := unique_counts (concat changes) in
  let total_pixels := list_sum (map snd uc) in
  Ok {| diff_min := mn; diff_max := mx; diff_mean := np_mean flat;
        change_counts :=
          map (fun p => (fst p, snd p, percent (Z.of_nat (snd p)) (Z.of_nat total_pixels))) uc;
        change_total := total_pixels;
        class_changes :=
          option_map
            (fun cm =>
               let changed_pixels := fold_right Z.add 0%Z (concat cm) in
               let total_pixels_class := Z.of_nat (length (concat cm)) in
               (changed_pixels, (total_pixels_class - changed_pixels)%Z,
                percent changed_pixels total_pixels_class))
            change_matrix |}.

(** ** Per-pixel rules stated by the specification *)

(** The normalized-difference rule of the specification, per pixel. *)
Definition nd_spec (a b : fv) : fv :=
  if feq (fadd a b) F0 then F0 else fdiv (fsub a b) (fadd a b).

(** The three-way change rule of the specification, per pixel. *)
Definition change_spec (d t : fv) : Z :=
  if flt d (fneg t) then 1%Z
  else if fgt d t then 2%Z
  else 3%Z.

(** The land-cover class of [extract_urban_areas], rule by rule in
    order of precedence (a later assignment overrides an earlier one). *)
Definition urban_class (n b ndvi_threshold bui_threshold : fv) : Z :=
  if flt n (Fin (1 # 10)) && flt b (Fin (5 # 100)) then 3%Z
  else if fgt n (Fin (4 # 10)) then 2%Z
  else if flt n ndvi_threshold && fgt b bui_threshold then 1%Z
  else if flt n (Fin (2 # 10)) && flt b (Fin (1 # 10)) then 4%Z
  else 0%Z.

(** Number of positions of an [h] x [w] grid where [p] holds. *)
Definition count_cells (h w : nat) (p : nat -> nat -> bool) : nat :=
  count_true (concat (tabulate h w p)).

(** * Array lemmas *)

Section ArrayLemmas.
Context {A B C : Type}.
Local Open Scope nat_scope.

Lemma length_tabulate h w (g : nat -> nat -> A) : length (tabulate h w g) = h.
Proof. unfold tabulate. now rewrite length_map, length_seq. Qed.

Lemma width_tabulate h w (g : nat -> nat -> A) :
  0 < h -> width (tabulate h w g) = w.
Proof.
  intros Hh. destruct h as [|h]; [lia|].
  cbn. now rewrite length_map, length_seq.
Qed.

Lemma rect_tabulate h w (g : nat -> nat -> A) : rect (tabulate h w g).
Proof.
  unfold rect. destruct h as [|h]; [constructor|].
  rewrite width_tabulate by lia.
  unfold tabulate. apply Forall_map, Forall_forall.
  intros i _. now rewrite length_map, length_seq.
Qed.

Lemma nth_map_lt {X Y} (f : X -> Y) (l : list X) i d d0 :
  i < length l -> nth i (map f l) d = f (nth i l d0).
Proof.
  revert i. induction l as [|x l IH]; intros [|i] Hi; cbn in *; try lia.
  - reflexivity.
  - apply IH. lia.
Qed.

Lemma get_tabulate d h w (g : nat -> nat -> A) i j :
  i < h -> j < w -> get d (tabulate h w g) i j = g i j.
Proof.
  intros Hi Hj. unfold get, tabulate.
  rewrite (nth_map_lt _ _ _ _ 0) by (rewrite length_seq; lia).
  rewrite (nth_map_lt _ _ _ _ 0) by (rewrite length_seq; lia).
  rewrite !seq_nth by lia. reflexivity.
Qed.

Lemma tabulate_ext {T} h w (g g' : nat -> nat -> T) :
  (forall i j, i < h -> j < w -> g i j = g' i j) ->
  tabulate h w g = tabulate h w g'.
Proof.
  intros E. unfold tabulate. apply map_ext_in. intros i Hi.
  apply map_ext_in. intros j Hj. apply in_seq in Hi, Hj. apply E; lia.
Qed.

Lemma bidx_lt n i : i < n -> bidx n i = i.
Proof. unfold bidx. destruct (Nat.eqb_spec n 1); lia. Qed.

Lemma bin_op_same (da : A) (db : B) (f : A -> B -> C) X Y :
  length X = length Y -> width X = width Y ->
  bin_op da db f X Y =
  Ok (tabulate (length X) (width X) (fun i j => f (get da X i j) (get db Y i j))).
Proof.
  intros Hl Hw. unfold bin_op, bcast_dim.
  rewrite Hl, Hw, !Nat.eqb_refl. f_equal.
  apply tabulate_ext. intros i j Hi Hj. unfold bget.
  rewrite !bidx_lt by lia. reflexivity.
Qed.

Lemma length_scalar_op (f : A -> B) X : length (scalar_op f X) = length X.
Proof. apply length_map. Qed.

Lemma width_scalar_op (f : A -> B) X : width (scalar_op f X) = width X.
Proof. destruct X; cbn; [reflexivity|]. apply length_map. Qed.

Lemma rect_scalar_op (f : A -> B) X : rect X -> rect (scalar_op f X).
Proof.
  unfold rect. rewrite width_scalar_op. intros H.
  apply Forall_map. eapply Forall_impl; [|exact H].
  intros r Hr. cbn. now rewrite length_map.
Qed.

Lemma get_scalar_op (d : A) (d' : B) (f : A -> B) X i j :
  rect X -> i < length X -> j < width X ->
  get d' (scalar_op f X) i j = f (get d X i j).
Proof.
  intros HR Hi Hj. unfold get, scalar_op.
  assert (Hrow : length (nth i X []) = width X).
  { unfold rect in HR. rewrite Forall_forall in HR. apply HR, nth_In, Hi. }
  rewrite (nth_map_lt _ _ _ _ []) by lia.
  apply (nth_map_lt _ _ _ _ d). lia.
Qed.

Lemma mask_assign_same (d : A) m v X :
  length m = length X -> width m = width X ->
  mask_assign d m v X =
  Ok (tabulate (length X) (width X)
        (fun i j => if get false m i j then v else get d X i j)).
Proof.
  intros Hl Hw. unfold mask_assign. now rewrite Hl, Hw, !Nat.eqb_refl.
Qed.

End ArrayLemmas.

Lemma width_tabulate_any {T} h w (g : nat -> nat -> T) :
  width (tabulate h w g) = match h with 0 => 0%nat | S _ => w end.
Proof. destruct h; [reflexivity|]. apply width_tabulate. lia. Qed.

Ltac shape_rw :=
  repeat first [ rewrite length_tabulate | rewrite length_scalar_op
               | rewrite width_scalar_op | rewrite width_tabulate_any ].

Ltac len_rw := repeat first [rewrite length_tabulate | rewrite length_scalar_op].

(** Shapes of intermediate arrays, for a non-empty input. *)
Ltac shape_pos :=
  repeat first [ rewrite length_tabulate | rewrite length_scalar_op
               | rewrite width_scalar_op
               | rewrite width_tabulate by (len_rw; lia) ].

Ltac solve_shape :=
  first
    [ shape_pos; first [congruence | reflexivity]
    | shape_rw;
      repeat match goal with
             | |- context [match ?h with 0 => _ | S _ => _ end] => destruct h
             end;
      first [congruence | reflexivity] ].

(** Rewrite the next numpy operation of a [bind] chain whose operands have
    one shape. *)
Ltac np_step :=
  first [ rewrite bin_op_same by solve_shape
        | rewrite mask_assign_same by solve_shape ];
  cbn [bind].

Ltac get_simpl :=
  repeat first
    [ rewrite get_tabulate by solve_bounds
    | rewrite (get_scalar_op F0) by (first [apply rect_tabulate | assumption | solve_bounds])
    | rewrite (get_scalar_op 0%Z) by (first [apply rect_tabulate | assumption | solve_bounds]) ]
with solve_bounds := shape_pos; lia.

(** * Spectral indices *)

Lemma calculate_ndvi_pixels red nir :
  length red = length nir -> width red = width nir ->
  exists out, calculate_ndvi red nir = Ok out /\
    nodata out = Fin (-9999) /\
    length (data out) = length nir /\ rect (data out) /\
    forall i j, (i < length nir)%nat -> (j < width nir)%nat ->
      get F0 (data out) i j = nd_spec (get F0 nir i j) (get F0 red i j).
Proof.
  intros Hl Hw.
  destruct (Nat.eq_dec (length nir) 0) as [E|Hpos].
  { apply length_zero_iff_nil in E. subst nir.
    apply length_zero_iff_nil in Hl. subst red.
    eexists; split; [reflexivity|]. cbn. repeat split; [constructor|lia]. }
  unfold calculate_ndvi. repeat np_step.
  eexists; split; [reflexivity|]; cbn [data nodata].
  split; [reflexivity|]. split; [shape_pos; reflexivity|]. split; [apply rect_tabulate|].
  intros i j Hi Hj. get_simpl. unfold nd_spec, fne.
  destruct (feq _ F0); reflexivity.
Qed.

Lemma calculate_built_up_index_pixels red nir swir :
  length red = length nir -> width red = width nir ->
  length swir = length nir -> width swir = width nir ->
  exists bui ndvi ndbi,
    calculate_built_up_index red nir swir = Ok (bui, ndvi, ndbi) /\
    nodata bui = Fin (-9999) /\
    forall i j, (i < length nir)%nat -> (j < width nir)%nat ->
      get F0 ndvi i j = nd_spec (get F0 nir i j) (get F0 red i j) /\
      get F0 ndbi i j = nd_spec (get F0 swir i j) (get F0 nir i j) /\
      get F0 (data bui) i j =
        fsub (nd_spec (get F0 swir i j) (get F0 nir i j))
             (nd_spec (get F0 nir i j) (get F0 red i j)).
Proof.
  intros Hl Hw Hl' Hw'.
  destruct (Nat.eq_dec (length nir) 0) as [E|Hpos].
  { apply length_zero_iff_nil in E. subst nir.
    apply length_zero_iff_nil in Hl. subst red.
    apply length_zero_iff_nil in Hl'. subst swir.
    do 3 eexists; split; [reflexivity|]. split; [reflexivity|]. cbn. lia. }
  unfold calculate_built_up_index. repeat np_step.
  do 3 eexists; split; [reflexivity|]; cbn [data nodata].
  split; [reflexivity|].
  intros i j Hi Hj. get_simpl. unfold nd_spec, fne.
  split; [|split]; repeat match goal with |- context [feq ?x F0] => destruct (feq x F0) end;
    reflexivity.
Qed.

Lemma nd_spec_finite a b :
  is_finite a = true -> is_finite b = true -> is_finite (nd_spec a b) = true.
Proof.
  destruct a as [a| |], b as [b| |]; try discriminate. intros _ _.
  unfold nd_spec. cbn. destruct (Qeq_bool (a + b)%Q 0%Q) eqn:E; reflexivity.
Qed.

Lemma fsub_finite a b :
  is_finite a = true -> is_finite b = true -> is_finite (fsub a b) = true.
Proof. destruct a, b; try discriminate; reflexivity. Qed.

Lemma nd_spec_bounded (a b : Q) :
  (0 <= a)%Q -> (0 <= b)%Q ->
  exists q, nd_spec (Fin a) (Fin b) = Fin q /\ (-1 <= q <= 1)%Q.
Proof.
  intros Ha Hb. unfold nd_spec. cbn.
  destruct (Qeq_bool (a + b)%Q 0%Q) eqn:E.
  - exists 0%Q. split; [reflexivity|]. lra.
  - exists ((a + - b) / (a + b))%Q. split; [reflexivity|].
    assert (Hne : ~ (a + b == 0)%Q).
    { intros H. apply Qeq_bool_iff in H. congruence. }
    assert (Hp : (0 < a + b)%Q).
    { destruct (Qle_lteq 0 (a + b)) as [[H|H] _]; [lra|exact H|].
      exfalso. apply Hne. symmetry. exact H. }
    split.
    + apply Qle_shift_div_l; [exact Hp|]. lra.
    + apply Qle_shift_div_r; [exact Hp|]. lra.
Qed.

(** ** C1 *)

(** C1: on equal-shape bands the NDVI pixel is [(a - b) / (a + b)] when
    [a + b != 0] and exactly [0] when [a + b == 0]; both components of the
    built-up index (NDVI and NDBI) follow the same rule and the index is
    their difference; so a zero denominator gives exactly [0] in every
    output, never NaN. *)
Theorem index_safe_division red nir swir :
  length red = length nir -> width red = width nir ->
  length swir = length nir -> width swir = width nir ->
  (exists out, calculate_ndvi red nir = Ok out /\
     forall i j, (i < length nir)%nat -> (j < width nir)%nat ->
       let a := get F0 nir i j in let b := get F0 red i j in
       get F0 (data out) i j =
         (if feq (fadd a b) F0 then F0 else fdiv (fsub a b) (fadd a b))) /\
  (exists bui ndvi ndbi,
     calculate_built_up_index red nir swir = Ok (bui, ndvi, ndbi) /\
     forall i j, (i < length nir)%nat -> (j < width nir)%nat ->
       let r := get F0 red i j in let n := get F0 nir i j in
       let s := get F0 swir i j in
       get F0 ndvi i j =
         (if feq (fadd n r) F0 then F0 else fdiv (fsub n r) (fadd n r)) /\
       get F0 ndbi i j =
         (if feq (fadd s n) F0 then F0 else fdiv (fsub s n) (fadd s n)) /\
       get F0 (data bui) i j = fsub (get F0 ndbi i j) (get F0 ndvi i j)).
Proof.
  intros Hl Hw Hl' Hw'. split.
  - destruct (calculate_ndvi_pixels red nir Hl Hw) as (out & E & _ & _ & _ & P).
    exists out. split; [exact E|]. intros i j Hi Hj. cbv zeta.
    rewrite (P i j Hi Hj). reflexivity.
  - destruct (calculate_built_up_index_pixels red nir swir Hl Hw Hl' Hw')
      as (bui & ndvi & ndbi & E & _ & P).
    exists bui, ndvi, ndbi. split; [exact E|]. intros i j Hi Hj. cbv zeta.
    destruct (P i j Hi Hj) as (P1 & P2 & P3).
    rewrite P3, P1, P2. repeat split; reflexivity.
Qed.

Lemma index_safe_division_witness :
  exists out, calculate_ndvi [[Fin 1; Fin 0]] [[Fin 3; Fin 0]] = Ok out /\
    get F0 (data out) 0 0 = Fin (2 # 4) /\ get F0 (data out) 0 1 = F0.
Proof.
  destruct (index_safe_division [[Fin 1; Fin 0]] [[Fin 3; Fin 0]] [[Fin 5; Fin 0]]
              eq_refl eq_refl eq_refl eq_refl) as [[out [E P]] _].
  exists out. split; [exact E|].
  rewrite (P 0 0 ltac:(cbn; lia) ltac:(cbn; lia)).
  rewrite (P 0 1 ltac:(cbn; lia) ltac:(cbn; lia)). split; reflexivity.
Defined.

(** ** C8 *)

(** C8 (counterexample): a band value [+inf] satisfies [a >= 0], yet the
    NDVI pixel is [inf / inf = NaN], outside [[-1, 1]]. *)
Lemma ndvi_bound_fails_on_infinite_band :
  fge (Inf false) F0 = true /\ fge F0 F0 = true /\
  calculate_ndvi [[F0]] [[Inf false]] =
    Ok {| data := [[NaN]]; nodata := Fin (-9999) |} /\
  fle (Fin (-1)) NaN = false.
Proof. repeat split; reflexivity. Qed.

(** C8 (amended): on equal-shape bands, every NDVI pixel whose two band
    values are finite and non-negative is a finite number in [[-1, 1]]. *)
Theorem ndvi_bounded_for_finite_nonneg red nir :
  length red = length nir -> width red = width nir ->
  exists out, calculate_ndvi red nir = Ok out /\
    forall i j (a b : Q), (i < length nir)%nat -> (j < width nir)%nat ->
      get F0 nir i j = Fin a -> get F0 red i j = Fin b ->
      (0 <= a)%Q -> (0 <= b)%Q ->
      exists q, get F0 (data out) i j = Fin q /\ (-1 <= q <= 1)%Q.
Proof.
  intros Hl Hw.
  destruct (calculate_ndvi_pixels red nir Hl Hw) as (out & E & _ & _ & _ & P).
  exists out. split; [exact E|].
  intros i j a b Hi Hj Ea Eb Ha Hb. rewrite (P i j Hi Hj), Ea, Eb.
  now apply nd_spec_bounded.
Qed.

Lemma ndvi_bounded_for_finite_nonneg_witness :
  exists out, calculate_ndvi [[Fin 1]] [[Fin 3]] = Ok out /\
    exists q, get F0 (data out) 0 0 = Fin q /\ (-1 <= q <= 1)%Q.
Proof.
  destruct (ndvi_bounded_for_finite_nonneg [[Fin 1]] [[Fin 3]] eq_refl eq_refl)
    as [out [E P]].
  exists out. split; [exact E|].
  apply (P 0 0 3%Q 1%Q); cbn; try lia; try reflexivity; lra.
Defined.

(** * Change detection *)

Lemma classify_changes_pixels diff t :
  rect diff ->
  exists g, classify_changes diff t = Ok g /\
    length g = length diff /\ rect g /\
    forall i j, (i < length diff)%nat -> (j < width diff)%nat ->
      get 0%Z g i j =
        (let d := get F0 diff i j in
         if fge d (fneg t) && fle d t then 3
         else if fgt d t then 2
         else if flt d (fneg t) then 1 else 0)%Z.
Proof.
  intros HR.
  destruct (Nat.eq_dec (length diff) 0) as [E|Hpos].
  { apply length_zero_iff_nil in E. subst diff.
    eexists; split; [reflexivity|]. cbn. repeat split; [constructor|lia]. }
  unfold classify_changes. repeat np_step.
  eexists; split; [reflexivity|].
  split; [shape_pos; reflexivity|]. split; [apply rect_tabulate|].
  intros i j Hi Hj. get_simpl. reflexivity.
Qed.

(** ** Order of non-NaN floating-point values *)

Lemma Qltb_iff x y : Qltb x y = true <-> (x < y)%Q.
Proof.
  unfold Qltb. rewrite negb_true_iff. split; intros H.
  - destruct (Qlt_le_dec x y) as [L|L]; [exact L|].
    apply Qle_bool_iff in L. congruence.
  - apply not_true_iff_false. intros H'. apply Qle_bool_iff in H'. lra.
Qed.

Lemma Qltb_false x y : Qltb x y = false -> (y <= x)%Q.
Proof. unfold Qltb. rewrite negb_false_iff. apply Qle_bool_iff. Qed.

Lemma Qeq_bool_false x y : Qeq_bool x y = false -> ~ (x == y)%Q.
Proof. intros H E. apply Qeq_bool_iff in E. congruence. Qed.

Ltac qbool :=
  repeat match goal with
         | H : Qltb _ _ = true |- _ => apply Qltb_iff in H
         | H : Qltb _ _ = false |- _ => apply Qltb_false in H
         | H : Qeq_bool _ _ = true |- _ => apply Qeq_bool_iff in H
         | H : Qeq_bool _ _ = false |- _ => apply Qeq_bool_false in H
         | |- context [Qltb ?a ?b] => destruct (Qltb a b) eqn:?
         | |- context [Qeq_bool ?a ?b] => destruct (Qeq_bool a b) eqn:?
         end.

Ltac qfinish :=
  first [ reflexivity | discriminate | lra
        | exfalso; lra
        | exfalso; match goal with H : ~ (_ == _)%Q |- _ => apply H; lra end ].

Ltac fv_cases x := destruct x as [?| [|] |].

Ltac fvsimpl := cbn -[Qeq_bool Qltb].

Lemma flt_fle_asym x y : flt x y = true -> fle y x = false.
Proof.
  fv_cases x; fv_cases y; fvsimpl; unfold fle; fvsimpl; intros H; qbool; qfinish.
Qed.

Lemma flt_total x y :
  is_nan x = false -> is_nan y = false -> flt x y = false -> fle y x = true.
Proof.
  fv_cases x; fv_cases y; fvsimpl; unfold fle; fvsimpl; intros; qbool; qfinish.
Qed.

Lemma flt_fle_trans x y z : flt x y = true -> fle y z = true -> flt x z = true.
Proof.
  fv_cases x; fv_cases y; fv_cases z; unfold fle; fvsimpl; intros H1 H2;
    rewrite ?orb_true_iff in H2; qbool; try (destruct H2 as [H2|H2]; qbool);
    qfinish.
Qed.

Lemma fneg_le_nonneg t : fle F0 t = true -> fle (fneg t) t = true.
Proof.
  fv_cases t; unfold fle; fvsimpl; intros H; rewrite ?orb_true_iff in H; qbool;
    try (destruct H as [H|H]; qbool); qfinish.
Qed.

Lemma classify_pixel_nonneg_threshold d t :
  fle F0 t = true ->
  (if fge d (fneg t) && fle d t then 3
   else if fgt d t then 2
   else if flt d (fneg t) then 1 else 0)%Z =
  (if is_nan d then 0%Z else change_spec d t).
Proof.
  unfold change_spec, fge, fgt, fle.
  fv_cases d; fv_cases t; fvsimpl; intros H; rewrite ?orb_true_iff in H;
    qbool; try (destruct H as [H|H]; qbool); qfinish.
Qed.

Lemma classify_pixel_range d t :
  is_nan t = false -> is_nan d = false ->
  let c := (if fge d (fneg t) && fle d t then 3
            else if fgt d t then 2
            else if flt d (fneg t) then 1 else 0)%Z in
  c = 1%Z \/ c = 2%Z \/ c = 3%Z.
Proof.
  unfold fge, fgt, fle. cbv zeta.
  fv_cases d; fv_cases t; fvsimpl; intros H1 H2; try discriminate;
    qbool; first [ left; qfinish | right; left; qfinish | right; right; qfinish
                 | exfalso; qfinish ].
Qed.

Lemma change_spec_boundary d t :
  fle F0 t = true -> feq d t || feq d (fneg t) = true -> change_spec d t = 3%Z.
Proof.
  unfold change_spec, fgt, fle.
  fv_cases d; fv_cases t; fvsimpl; intros H1 H2; rewrite ?orb_true_iff in H1, H2;
    qbool; try (destruct H1 as [H1|H1]); try (destruct H2 as [H2|H2]); qbool; qfinish.
Qed.

(** ** C2 *)

(** C2 (counterexample): at the default threshold a NaN difference pixel
    satisfies none of the three masks and keeps the fill value 0, where
    the three-way rule gives no-change (3). *)
Lemma classify_changes_nan_pixel_not_no_change :
  classify_changes [[NaN]] default_threshold = Ok [[0%Z]] /\
  change_spec NaN default_threshold = 3%Z.
Proof. split; reflexivity. Qed.

(** C2 (amended): for a well-formed difference raster and a threshold
    [t >= 0], a pixel with [diff < -t] is 1, with [diff > t] is 2, a NaN
    pixel is 0 and every other pixel is 3; in particular [diff == t] or
    [diff == -t] gives 3. *)
Theorem classify_changes_three_way diff t :
  rect diff -> fle F0 t = true ->
  exists g, classify_changes diff t = Ok g /\
    forall i j, (i < length diff)%nat -> (j < width diff)%nat ->
      let d := get F0 diff i j in
      (is_nan d = true -> get 0%Z g i j = 0%Z) /\
      (is_nan d = false -> flt d (fneg t) = true -> get 0%Z g i j = 1%Z) /\
      (is_nan d = false -> flt d (fneg t) = false -> fgt d t = true ->
       get 0%Z g i j = 2%Z) /\
      (is_nan d = false -> flt d (fneg t) = false -> fgt d t = false ->
       get 0%Z g i j = 3%Z) /\
      (feq d t || feq d (fneg t) = true -> get 0%Z g i j = 3%Z).
Proof.
  intros HR Ht.
  destruct (classify_changes_pixels diff t HR) as (g & E & _ & _ & P).
  exists g. split; [exact E|]. intros i j Hi Hj. cbv zeta.
  rewrite (P i j Hi Hj). cbv zeta. rewrite (classify_pixel_nonneg_threshold _ _ Ht).
  split; [|split; [|split; [|split]]]; intros; unfold change_spec;
    repeat match goal with H : ?b = _ |- context [?b] => rewrite H end;
    try reflexivity.
  destruct (get F0 diff i j) eqn:Ed; [| |cbn in *; discriminate]; cbn [is_nan];
    apply change_spec_boundary; assumption.
Qed.

Lemma classify_changes_three_way_witness :
  exists g, classify_changes [[Fin (1 # 10); Fin (-1 # 5)]] default_threshold = Ok g /\
    get 0%Z g 0 0 = 3%Z /\ get 0%Z g 0 1 = 1%Z.
Proof.
  destruct (classify_changes_three_way [[Fin (1 # 10); Fin (-1 # 5)]] default_threshold
              ltac:(repeat constructor) eq_refl) as [g [E P]].
  exists g. split; [exact E|]. split.
  - apply (P 0 0 ltac:(cbn; lia) ltac:(cbn; lia)). reflexivity.
  - apply (P 0 1 ltac:(cbn; lia) ltac:(cbn; lia)); reflexivity.
Defined.

(** ** C6 *)

(** C6 (counterexample): a NaN difference pixel is given 0, which is none
    of decrease (1), increase (2) and no-change (3). *)
Lemma classify_changes_nan_pixel_outside_categories :
  exists g, classify_changes [[NaN; Fin 0]] default_threshold = Ok g /\
    get 0%Z g 0 0 = 0%Z /\ get 0%Z g 0 1 = 3%Z.
Proof. eexists. split; [reflexivity|]. split; reflexivity. Qed.

(** C6 (amended): for a threshold that is not NaN, every pixel of the
    change classification whose difference is not NaN is 1, 2 or 3, and
    every NaN pixel is 0. *)
Theorem classify_changes_categories diff t :
  rect diff -> is_nan t = false ->
  exists g, classify_changes diff t = Ok g /\
    length g = length diff /\ rect g /\
    forall i j, (i < length diff)%nat -> (j < width diff)%nat ->
      (is_nan (get F0 diff i j) = false ->
       get 0%Z g i j = 1%Z \/ get 0%Z g i j = 2%Z \/ get 0%Z g i j = 3%Z) /\
      (is_nan (get F0 diff i j) = true -> get 0%Z g i j = 0%Z).
Proof.
  intros HR Ht.
  destruct (classify_changes_pixels diff t HR) as (g & E & L & R & P).
  exists g. split; [exact E|]. split; [exact L|]. split; [exact R|].
  intros i j Hi Hj. rewrite (P i j Hi Hj). cbv zeta. split.
  - intros Hd. exact (classify_pixel_range _ _ Ht Hd).
  - destruct (get F0 diff i j); try discriminate. intros _.
    destruct t; reflexivity.
Qed.

Lemma classify_changes_categories_witness :
  exists g, classify_changes [[Fin 1; Fin 0]] default_threshold = Ok g /\
    (get 0%Z g 0 0 = 1%Z \/ get 0%Z g 0 0 = 2%Z \/ get 0%Z g 0 0 = 3%Z).
Proof.
  destruct (classify_changes_categories [[Fin 1; Fin 0]] default_threshold
              ltac:(repeat constructor) eq_refl) as (g & E & _ & _ & P).
  exists g. split; [exact E|].
  apply (P 0 0 ltac:(cbn; lia) ltac:(cbn; lia)). reflexivity.
Defined.

(** ** C5 *)

Lemma compare_classifications_pixels A B :
  rect A -> length A = length B -> width A = width B ->
  exists out, compare_classifications A B = Ok out /\
    nodata out = 0%Z /\ length (data out) = length A /\ rect (data out) /\
    forall i j, (i < length A)%nat -> (j < width A)%nat ->
      get 0%Z (data out) i j =
        (if Z.eqb (get 0%Z A i j) (get 0%Z B i j) then 0 else 1)%Z.
Proof.
  intros HR Hl Hw.
  destruct (Nat.eq_dec (length A) 0) as [E|Hpos].
  { apply length_zero_iff_nil in E. subst A.
    symmetry in Hl. apply length_zero_iff_nil in Hl. subst B.
    eexists; split; [reflexivity|]. cbn. repeat split; [constructor|lia]. }
  unfold compare_classifications. repeat np_step.
  eexists; split; [reflexivity|]; cbn [data nodata].
  split; [reflexivity|]. split; [shape_pos; reflexivity|]. split; [apply rect_tabulate|].
  intros i j Hi Hj. get_simpl.
  destruct (Z.eqb (get 0%Z A i j) (get 0%Z B i j)); reflexivity.
Qed.

(** C5: on equal-shape label maps a pixel of the transition matrix is 1
    exactly when the two labels differ as numbers and 0 otherwise; for
    A = [[1,1],[2,2]] and B = [[1,2],[2,2]] the matrix is [[0,1],[0,0]]. *)
Theorem compare_classifications_inequality :
  (forall A B, rect A -> length A = length B -> width A = width B ->
   exists out, compare_classifications A B = Ok out /\
     forall i j, (i < length A)%nat -> (j < width A)%nat ->
       (get 0%Z (data out) i j = 1%Z <-> get 0%Z A i j <> get 0%Z B i j) /\
       (get 0%Z (data out) i j = 0%Z <-> get 0%Z A i j = get 0%Z B i j)) /\
  (exists out,
     compare_classifications [[1; 1]; [2; 2]]%Z [[1; 2]; [2; 2]]%Z = Ok out /\
     data out = [[0; 1]; [0; 0]]%Z).
Proof.
  split.
  - intros A B HR Hl Hw.
    destruct (compare_classifications_pixels A B HR Hl Hw) as (out & E & _ & _ & _ & P).
    exists out. split; [exact E|]. intros i j Hi Hj. rewrite (P i j Hi Hj).
    destruct (Z.eqb_spec (get 0%Z A i j) (get 0%Z B i j)); split; split; intros;
      congruence.
  - eexists. split; reflexivity.
Qed.

Lemma compare_classifications_inequality_witness :
  exists out, compare_classifications [[3; 4]]%Z [[3; 5]]%Z = Ok out /\
    get 0%Z (data out) 0 1 = 1%Z.
Proof.
  destruct (proj1 compare_classifications_inequality [[3; 4]]%Z [[3; 5]]%Z
              ltac:(repeat constructor) eq_refl eq_refl) as [out [E P]].
  exists out. split; [exact E|].
  apply (P 0 1 ltac:(cbn; lia) ltac:(cbn; lia)). discriminate.
Defined.

(** ** C4 *)

Lemma bcast_dim_pos n m h :
  bcast_dim n m = Some h -> (0 < n)%nat -> (0 < m)%nat -> (0 < h)%nat.
Proof.
  unfold bcast_dim.
  destruct (Nat.eqb_spec n m), (Nat.eqb_spec n 1), (Nat.eqb_spec m 1);
    intros E; inversion E; lia.
Qed.

Lemma ndvi_difference_broadcast X Y :
  ((bcast_dim (length Y) (length X) = None \/ bcast_dim (width Y) (width X) = None) ->
   calculate_ndvi_difference X Y = Err ValueError) /\
  (forall h w, bcast_dim (length Y) (length X) = Some h ->
   bcast_dim (width Y) (width X) = Some w ->
   exists o, calculate_ndvi_difference X Y = Ok o /\
     length (data o) = h /\ rect (data o) /\ ((0 < h)%nat -> width (data o) = w) /\
     forall i j, (i < h)%nat -> (j < w)%nat ->
       get F0 (data o) i j = fsub (bget F0 Y i j) (bget F0 X i j)).
Proof.
  unfold calculate_ndvi_difference, bin_op. split.
  - intros [E|E]; rewrite E; [reflexivity|].
    destruct (bcast_dim (length Y) (length X)); reflexivity.
  - intros h w Eh Ew. rewrite Eh, Ew. cbn [bind].
    eexists; split; [reflexivity|]; cbn [data].
    split; [apply length_tabulate|]. split; [apply rect_tabulate|].
    split; [apply width_tabulate|].
    intros i j Hi Hj. now rewrite get_tabulate.
Qed.

Lemma compare_classifications_broadcast A B :
  (0 < length A)%nat -> (0 < length B)%nat ->
  ((bcast_dim (length A) (length B) = None \/ bcast_dim (width A) (width B) = None) ->
   compare_classifications A B = Err ValueError) /\
  (forall h w, bcast_dim (length A) (length B) = Some h ->
   bcast_dim (width A) (width B) = Some w ->
   (h <> length A \/ w <> width A) ->
   compare_classifications A B = Err IndexError) /\
  (rect A -> bcast_dim (length A) (length B) = Some (length A) ->
   bcast_dim (width A) (width B) = Some (width A) ->
   exists o, compare_classifications A B = Ok o /\ nodata o = 0%Z /\
     forall i j, (i < length A)%nat -> (j < width A)%nat ->
       get 0%Z (data o) i j =
         (if Z.eqb (get 0%Z A i j) (bget 0%Z B i j) then 0 else 1)%Z).
Proof.
  intros HA HB. unfold compare_classifications, bin_op. split; [|split].
  - intros [E|E]; rewrite E; [reflexivity|].
    destruct (bcast_dim (length A) (length B)); reflexivity.
  - intros h w Eh Ew Hne. rewrite Eh, Ew. cbn [bind].
    pose proof (bcast_dim_pos _ _ _ Eh HA HB) as Hh.
    unfold mask_assign. rewrite length_tabulate, width_tabulate by exact Hh.
    rewrite length_scalar_op, width_scalar_op.
    destruct (Nat.eqb_spec h (length A)), (Nat.eqb_spec w (width A));
      try reflexivity; lia.
  - intros HR Eh Ew. rewrite Eh, Ew. cbn [bind].
    rewrite mask_assign_same
      by (rewrite ?length_tabulate, ?length_scalar_op, ?width_scalar_op,
            ?width_tabulate by lia; reflexivity).
    cbn [bind]. eexists; split; [reflexivity|]; cbn [data nodata].
    split; [reflexivity|].
    intros i j Hi Hj.
    rewrite length_scalar_op, width_scalar_op in *.
    rewrite !get_tabulate by assumption.
    rewrite (get_scalar_op 0%Z) by assumption.
    unfold bget at 1. rewrite !bidx_lt by assumption.
    destruct (Z.eqb _ _); reflexivity.
Qed.

(** C4 (counterexample): the inputs of both change-detector operations
    have different shapes (one row against two), yet neither fails: numpy
    broadcasts the single row over the other raster. *)
Lemma change_detectors_accept_different_shapes :
  shape [[Fin 1; Fin 2]] <> shape [[Fin 1; Fin 2]; [Fin 3; Fin 4]] /\
  calculate_ndvi_difference [[Fin 1; Fin 2]] [[Fin 1; Fin 2]; [Fin 3; Fin 4]] =
    Ok {| data := [[Fin 0; Fin 0]; [Fin 2; Fin 2]]; nodata := Fin (-9999) |} /\
  shape [[1; 2]; [2; 2]]%Z <> shape [[1; 1]]%Z /\
  compare_classifications [[1; 2]; [2; 2]]%Z [[1; 1]]%Z =
    Ok {| data := [[0; 1]; [1; 1]]%Z; nodata := 0%Z |}.
Proof. repeat split; try reflexivity; discriminate. Qed.

(** C4 (amended): neither operation checks shapes, and the only errors are
    numpy's.  The index difference raises [ValueError] when an extent pair
    is neither equal nor contains a 1, and otherwise returns the broadcast
    difference over the broadcast extents.  The transition comparison
    raises [ValueError] in the same case, [IndexError] when the broadcast
    shape differs from the earlier map's shape, and otherwise returns a map
    of the earlier map's shape comparing each label with the broadcast
    label of the later map. *)
Theorem change_detectors_broadcast X Y A B :
  (0 < length A)%nat -> (0 < length B)%nat ->
  (((bcast_dim (length Y) (length X) = None \/ bcast_dim (width Y) (width X) = None) ->
    calculate_ndvi_difference X Y = Err ValueError) /\
   (forall h w, bcast_dim (length Y) (length X) = Some h ->
    bcast_dim (width Y) (width X) = Some w ->
    exists o, calculate_ndvi_difference X Y = Ok o /\
      length (data o) = h /\ rect (data o) /\ ((0 < h)%nat -> width (data o) = w) /\
      forall i j, (i < h)%nat -> (j < w)%nat ->
        get F0 (data o) i j = fsub (bget F0 Y i j) (bget F0 X i j))) /\
  (((bcast_dim (length A) (length B) = None \/ bcast_dim (width A) (width B) = None) ->
    compare_classifications A B = Err ValueError) /\
   (forall h w, bcast_dim (length A) (length B) = Some h ->
    bcast_dim (width A) (width B) = Some w ->
    (h <> length A \/ w <> width A) ->
    compare_classifications A B = Err IndexError) /\
   (rect A -> bcast_dim (length A) (length B) = Some (length A) ->
    bcast_dim (width A) (width B) = Some (width A) ->
    exists o, compare_classifications A B = Ok o /\ nodata o = 0%Z /\
      forall i j, (i < length A)%nat -> (j < width A)%nat ->
        get 0%Z (data o) i j =
          (if Z.eqb (get 0%Z A i j) (bget 0%Z B i j) then 0 else 1)%Z)).
Proof.
  intros HA HB. split.
  - apply ndvi_difference_broadcast.
  - now apply compare_classifications_broadcast.
Qed.

Lemma change_detectors_broadcast_witness :
  compare_classifications [[1; 2]; [3; 4]]%Z [[1; 2; 3]]%Z = Err ValueError /\
  compare_classifications [[1; 2]]%Z [[1; 2]; [3; 4]]%Z = Err IndexError.
Proof.
  destruct (change_detectors_broadcast [[F0]] [[F0]] [[1; 2]; [3; 4]]%Z [[1; 2; 3]]%Z
              ltac:(cbn; lia) ltac:(cbn; lia)) as [_ [P1 _]].
  destruct (change_detectors_broadcast [[F0]] [[F0]] [[1; 2]]%Z [[1; 2]; [3; 4]]%Z
              ltac:(cbn; lia) ltac:(cbn; lia)) as [_ [_ [P2 _]]].
  split.
  - apply P1. right. reflexivity.
  - apply (P2 2 2); [reflexivity | reflexivity | left; discriminate].
Defined.

(** ** C9 *)

(** C9 (code bug): the transition matrix is written with [nodata=0], and 0
    is one of its two valid values ("same class"): comparing two equal
    label maps yields a raster whose every pixel reads as nodata.  The
    floating-point outputs use [-9999], outside [[-1, 1]] and [[-2, 2]],
    and [create_classification_map] shifts cluster ids by one precisely to
    keep 0 free for its [nodata=0]. *)
Theorem transition_matrix_nodata_collides :
  compare_classifications [[1]]%Z [[1]]%Z =
    Ok {| data := [[0]]%Z; nodata := 0%Z |} /\
  (exists out, calculate_ndvi [[Fin 1]] [[Fin 3]] = Ok out /\
     nodata out = Fin (-9999) /\ flt (nodata out) (Fin (-2)) = true) /\
  (exists out, create_classification_map [0]%Z [true] (1, 1)%nat = Ok out /\
     nodata out = 0%Z /\ data out = [[1]]%Z).
Proof.
  split; [reflexivity|]. split.
  - eexists. split; [reflexivity|]. split; reflexivity.
  - eexists. split; [reflexivity|]. split; reflexivity.
Qed.

(** * Land-cover classification *)

Lemma count_true_cons b m :
  count_true (b :: m) = ((if b then 1 else 0) + count_true m)%nat.
Proof.
  unfold count_true. destruct b.
  - now rewrite count_occ_cons_eq.
  - now rewrite count_occ_cons_neq.
Qed.

Lemma nth_scatter m vals k :
  length vals = count_true m -> (k < length m)%nat ->
  nth k (scatter m vals (repeat 0%Z (length m))) 0%Z =
  (if nth k m false then nth (count_true (firstn k m)) vals 0%Z else 0%Z).
Proof.
  revert vals k.
  induction m as [|b m IH]; intros vals k Hv Hk; cbn in Hk; [lia|].
  rewrite count_true_cons in Hv. destruct b.
  - destruct vals as [|v vals]; cbn in Hv; [discriminate|].
    destruct k as [|k]; [reflexivity|]. cbn [scatter repeat firstn nth length Nat.add].
    rewrite count_true_cons. rewrite IH by lia. reflexivity.
  - destruct k as [|k]; [reflexivity|]. cbn [scatter repeat firstn nth length Nat.add].
    rewrite count_true_cons. rewrite IH by lia. reflexivity.
Qed.

Lemma count_true_firstn_lt m k :
  (k < length m)%nat -> nth k m false = true ->
  (count_true (firstn k m) < count_true m)%nat.
Proof.
  revert k.
  induction m as [|b m IH]; intros k Hk Hn; cbn in Hk; [lia|].
  destruct k as [|k].
  - cbn in Hn. subst b. cbn [firstn]. rewrite count_true_cons.
    unfold count_true at 1. cbn. lia.
  - cbn in Hn. cbn [firstn]. rewrite !count_true_cons.
    specialize (IH k ltac:(lia) Hn). destruct b; lia.
Qed.

Lemma length_filter_count {T} (f : T -> bool) l :
  length (filter f l) = count_true (map f l).
Proof.
  induction l as [|x l IH]; [reflexivity|].
  cbn [map filter]. rewrite count_true_cons. destruct (f x); cbn; rewrite IH; reflexivity.
Qed.

Lemma to_uint8_small l : (0 <= l < 255)%Z -> to_uint8 (l + 1) = (l + 1)%Z.
Proof. intros H. unfold to_uint8. apply Z.mod_small. lia. Qed.

(** The label map built from a mask and one label per true position. *)
Lemma create_classification_map_pixels labels valid h w :
  length valid = (h * w)%nat -> length labels = count_true valid ->
  exists out, create_classification_map labels valid (h, w) = Ok out /\
    nodata out = 0%Z /\
    forall i j, (i < h)%nat -> (j < w)%nat ->
      get 0%Z (data out) i j =
        (if nth (i * w + j) valid false
         then to_uint8 (nth (count_true (firstn (i * w + j) valid)) labels 0%Z + 1)
         else 0%Z).
Proof.
  intros Hlen Hcnt. unfold create_classification_map, masked_assign.
  rewrite repeat_length, Hlen, Nat.eqb_refl. cbn [negb].
  rewrite length_map, Hcnt. fold (count_true valid). rewrite Nat.eqb_refl. cbn [bind].
  eexists; split; [reflexivity|]; cbn [data nodata]. split; [reflexivity|].
  intros i j Hi Hj. unfold reshape. rewrite get_tabulate by assumption.
  assert (Hk : (i * w + j < length valid)%nat) by (rewrite Hlen; nia).
  rewrite <- Hlen. rewrite nth_scatter by (rewrite ?length_map; lia).
  destruct (nth (i * w + j) valid false) eqn:Ev; [|reflexivity].
  rewrite (nth_map_lt _ _ _ _ 0%Z); [reflexivity|].
  rewrite Hcnt. now apply count_true_firstn_lt.
Qed.

Lemma nth_valid_pixels stacked n k :
  (k < n)%nat ->
  nth k (map valid_pixel (pixel_vectors stacked n)) false =
  negb (existsb (fun v => is_nan v || feq v F0)
          (map (fun B => nth k (concat B) F0) stacked)).
Proof.
  intros Hk. unfold pixel_vectors.
  rewrite (nth_map_lt _ _ _ _ []) by (rewrite length_map, length_seq; lia).
  rewrite (nth_map_lt _ _ _ _ 0%nat) by (rewrite length_seq; lia).
  rewrite seq_nth by lia. reflexivity.
Qed.

(** ** C3 *)

(** C3 (code bug): with 256 clusters (256 distinct valid pixels, one per
    cluster), the cluster id 255 plus one wraps to 0 in the uint8 map, so a
    valid pixel gets the no-data label 0 that the code adds 1 to avoid. *)
Lemma label_map_wraps_at_256_clusters :
  let p := prepare_classification_data [ramp16] 100 in
  let labels := map Z.of_nat (seq 0 256) in
  length labels = length (valid_data p) /\
  nth 255 (valid_pixels p) false = true /\
  exists out, create_classification_map labels (valid_pixels p) (original_shape p) = Ok out /\
    get 0%Z (data out) 15 15 = 0%Z.
Proof.
  cbv zeta. split; [vm_compute; reflexivity|]. split; [vm_compute; reflexivity|].
  eexists. split; [vm_compute; reflexivity|]. vm_compute. reflexivity.
Qed.

(** X19: with at most 255 clusters, in the label map built from
    the windowed band stack a pixel's label is 0 exactly when one of its
    band values is NaN or exactly zero; every other pixel's label is its
    cluster id (the labels being those of the valid pixels in pixel order)
    plus one, within 1..N. *)
Theorem classification_map_valid_labels bands s labels (N : Z) :
  length labels = length (valid_data (prepare_classification_data bands s)) ->
  Forall (fun l => (0 <= l < N)%Z) labels -> (N <= 255)%Z ->
  let stacked := classification_stack bands s in
  let h := length (hd [] stacked) in
  let w := width (hd [] stacked) in
  let p := prepare_classification_data bands s in
  exists out,
    create_classification_map labels (valid_pixels p) (original_shape p) = Ok out /\
    forall i j, (i < h)%nat -> (j < w)%nat ->
      let k := (i * w + j)%nat in
      let invalid := existsb (fun v => is_nan v || feq v F0)
                       (map (fun B => nth k (concat B) F0) stacked) in
      (get 0%Z (data out) i j = 0%Z <-> invalid = true) /\
      (invalid = false ->
       get 0%Z (data out) i j =
         (nth (count_true (firstn k (valid_pixels p))) labels 0 + 1)%Z /\
       (1 <= get 0%Z (data out) i j <= N)%Z).
Proof.
  intros HL HF HN. cbv zeta.
  unfold prepare_classification_data in *. cbn [valid_pixels valid_data original_shape] in *.
  set (stacked := classification_stack bands s) in *.
  set (h := length (hd [] stacked)) in *.
  set (w := width (hd [] stacked)) in *.
  set (valid := map valid_pixel (pixel_vectors stacked (h * w))).
  assert (Hlen : length valid = (h * w)%nat).
  { unfold valid, pixel_vectors. now rewrite !length_map, length_seq. }
  assert (Hcnt : length labels = count_true valid).
  { rewrite HL. apply length_filter_count. }
  destruct (create_classification_map_pixels labels valid h w Hlen Hcnt)
    as (out & E & _ & P).
  exists out. split; [exact E|].
  intros i j Hi Hj.
  assert (Hk : (i * w + j < h * w)%nat) by nia.
  assert (Ev : nth (i * w + j) valid false =
                negb (existsb (fun v => is_nan v || feq v F0)
                        (map (fun B => nth (i * w + j) (concat B) F0) stacked)))
    by (apply nth_valid_pixels; exact Hk).
  rewrite (P i j Hi Hj), Ev.
  destruct (existsb _ _) eqn:Einv; cbn [negb].
  - split; [split; reflexivity | discriminate].
  - assert (Hr : (count_true (firstn (i * w + j) valid) < length labels)%nat).
    { rewrite Hcnt. apply count_true_firstn_lt; [lia|].
      rewrite Ev; try rewrite Einv; reflexivity. }
    assert (Hb : (0 <= nth (count_true (firstn (i * w + j) valid)) labels 0 < N)%Z).
    { rewrite Forall_forall in HF. apply HF, nth_In, Hr. }
    rewrite to_uint8_small by lia.
    split; [split; [lia | discriminate]|].
    intros _. split; [reflexivity | lia].
Qed.

Lemma classification_map_valid_labels_witness :
  exists out,
    create_classification_map [0; 1]%Z
      (valid_pixels (prepare_classification_data [[[Fin 1; F0]; [Fin 2; NaN]]] 100))
      (original_shape (prepare_classification_data [[[Fin 1; F0]; [Fin 2; NaN]]] 100)) = Ok out /\
    get 0%Z (data out) 1 0 = 2%Z /\ get 0%Z (data out) 0 1 = 0%Z.
Proof.
  destruct (classification_map_valid_labels [[[Fin 1; F0]; [Fin 2; NaN]]] 100 [0; 1]%Z 2
              eq_refl ltac:(repeat constructor; lia) ltac:(lia)) as [out [E P]].
  exists out. split; [exact E|]. split.
  - destruct (P 1 0 ltac:(vm_compute; lia) ltac:(vm_compute; lia)) as [_ P2].
    rewrite (proj1 (P2 eq_refl)). reflexivity.
  - destruct (P 0 1 ltac:(vm_compute; lia) ltac:(vm_compute; lia)) as [P1 _].
    apply P1. reflexivity.
Defined.

(** ** C7 *)

(** The window stays inside the grid (clamped at each edge, never an
    error) and, for an even size that fits, has exactly that many rows. *)
Lemma classification_window_rows (height width s : Z) :
  (0 <= height)%Z -> (0 <= s)%Z ->
  let '(x1, y1, ww, hh) := classification_window height width s in
  (0 <= y1)%Z /\ (y1 + hh <= height)%Z /\
  ((s mod 2 = 0)%Z -> (s <= height)%Z -> hh = s).
Proof.
  intros Hh Hs. unfold classification_window.
  pose proof (Z.div_mod height 2 ltac:(lia)) as Dh.
  pose proof (Z.mod_pos_bound height 2 ltac:(lia)) as Mh.
  pose proof (Z.div_mod s 2 ltac:(lia)) as Ds.
  pose proof (Z.mod_pos_bound s 2 ltac:(lia)) as Ms.
  split; [lia|]. split; [lia|]. intros Ev Hle. lia.
Qed.

(** C7 (code bug): in a 10 x 10 grid a window of size 3 fits, yet
    [half_win = 3 // 2 = 1] on each side of the centre gives a 2 x 2
    window. *)
Theorem classification_window_odd_size :
  classification_window 10 10 3 = (4, 4, 2, 2)%Z /\
  original_shape
    (prepare_classification_data [tabulate 10 10 (fun _ _ => Fin 1)] 3) = (2, 2)%nat.
Proof. split; reflexivity. Qed.

(** * Urban extraction *)

Lemma extract_urban_areas_tab ndvi bui th bth :
  rect ndvi -> rect bui -> length bui = length ndvi -> width bui = width ndvi ->
  extract_urban_areas ndvi bui th bth =
    Ok (tabulate (length ndvi) (width ndvi)
          (fun i j => urban_class (get F0 ndvi i j) (get F0 bui i j) th bth)).
Proof.
  intros HR HR' Hl Hw.
  destruct (Nat.eq_dec (length ndvi) 0) as [E|Hpos].
  { apply length_zero_iff_nil in E. subst ndvi.
    apply length_zero_iff_nil in Hl. subst bui. reflexivity. }
  unfold extract_urban_areas. repeat np_step. f_equal.
  shape_pos. apply tabulate_ext.
  intros i j Hi Hj. get_simpl. unfold urban_class.
  destruct (flt (get F0 ndvi i j) (Fin (2 # 10))), (flt (get F0 bui i j) (Fin (1 # 10))),
    (flt (get F0 ndvi i j) (Fin (1 # 10))), (flt (get F0 bui i j) (Fin (5 # 100))),
    (fgt (get F0 ndvi i j) (Fin (4 # 10))), (flt (get F0 ndvi i j) th),
    (fgt (get F0 bui i j) bth); reflexivity.
Qed.

Lemma urban_class_default n b :
  let c := urban_class n b default_ndvi_threshold default_bui_threshold in
  (c = 1%Z <-> flt n (Fin (3 # 10)) && fgt b (Fin (1 # 10)) = true) /\
  (c = 2%Z <-> fgt n (Fin (4 # 10)) = true) /\
  (c = 3%Z <-> flt n (Fin (1 # 10)) && flt b (Fin (5 # 100)) = true) /\
  (c = 4%Z <-> flt n (Fin (2 # 10)) && flt b (Fin (1 # 10))
               && negb (flt n (Fin (1 # 10)) && flt b (Fin (5 # 100))) = true).
Proof.
  unfold urban_class, default_ndvi_threshold, default_bui_threshold, fgt. cbv zeta.
  fv_cases n; fv_cases b; fvsimpl; qbool; cbn;
    repeat split; intro H; first [reflexivity | discriminate H | exfalso; lra].
Qed.

(** ** X1 *)

(** X1: on a well-formed NDVI raster and a well-formed BUI raster of the
    same shape, [extract_urban_areas] never fails and returns a raster of
    that shape whose pixel is the class of the last matching rule: water
    (3) overrides vegetation (2), which overrides urban (1); bare soil (4)
    is given only where none of these matched, and 0 elsewhere. *)
Theorem extract_urban_areas_priority ndvi bui th bth :
  rect ndvi -> rect bui -> length bui = length ndvi -> width bui = width ndvi ->
  exists g, extract_urban_areas ndvi bui th bth = Ok g /\
    length g = length ndvi /\ rect g /\
    forall i j, (i < length ndvi)%nat -> (j < width ndvi)%nat ->
      let n := get F0 ndvi i j in let b := get F0 bui i j in
      get 0%Z g i j =
        (if flt n (Fin (1 # 10)) && flt b (Fin (5 # 100)) then 3
         else if fgt n (Fin (4 # 10)) then 2
         else if flt n th && fgt b bth then 1
         else if flt n (Fin (2 # 10)) && flt b (Fin (1 # 10)) then 4
         else 0)%Z.
Proof.
  intros HR HR' Hl Hw. rewrite (extract_urban_areas_tab _ _ th bth HR HR' Hl Hw).
  eexists; split; [reflexivity|].
  split; [apply length_tabulate|]. split; [apply rect_tabulate|].
  intros i j Hi Hj. now rewrite get_tabulate.
Qed.

Lemma extract_urban_areas_priority_witness :
  exists g, extract_urban_areas [[Fin (2 # 10); Fin (5 # 10)]] [[Fin (2 # 10); Fin 0]]
              default_ndvi_threshold default_bui_threshold = Ok g /\
    get 0%Z g 0 0 = 1%Z /\ get 0%Z g 0 1 = 2%Z.
Proof.
  destruct (extract_urban_areas_priority [[Fin (2 # 10); Fin (5 # 10)]]
              [[Fin (2 # 10); Fin 0]] default_ndvi_threshold default_bui_threshold
              ltac:(repeat constructor) ltac:(repeat constructor) eq_refl eq_refl)
    as (g & E & _ & _ & P).
  exists g. split; [exact E|].
  rewrite (P 0 0 ltac:(cbn; lia) ltac:(cbn; lia)), (P 0 1 ltac:(cbn; lia) ltac:(cbn; lia)).
  split; reflexivity.
Defined.

(** ** X2 *)

(** X2: a pixel whose NDVI is NaN matches no rule and stays 0
    (unclassified), whatever its BUI; a pixel whose BUI is NaN is
    vegetation (2) when its NDVI exceeds 0.4 and 0 otherwise. *)
Theorem extract_urban_areas_nan_pixels ndvi bui th bth :
  rect ndvi -> rect bui -> length bui = length ndvi -> width bui = width ndvi ->
  exists g, extract_urban_areas ndvi bui th bth = Ok g /\
    forall i j, (i < length ndvi)%nat -> (j < width ndvi)%nat ->
      (is_nan (get F0 ndvi i j) = true -> get 0%Z g i j = 0%Z) /\
      (is_nan (get F0 bui i j) = true ->
       get 0%Z g i j = if fgt (get F0 ndvi i j) (Fin (4 # 10)) then 2%Z else 0%Z).
Proof.
  intros HR HR' Hl Hw. rewrite (extract_urban_areas_tab _ _ th bth HR HR' Hl Hw).
  eexists; split; [reflexivity|].
  intros i j Hi Hj. rewrite get_tabulate by assumption. unfold urban_class. split.
  - destruct (get F0 ndvi i j); try discriminate. intros _. reflexivity.
  - destruct (get F0 bui i j); try discriminate. intros _.
    destruct (fgt (get F0 ndvi i j) (Fin (4 # 10))), (flt (get F0 ndvi i j) (Fin (1 # 10))),
      (flt (get F0 ndvi i j) th), (flt (get F0 ndvi i j) (Fin (2 # 10)));
      destruct bth; reflexivity.
Qed.

Lemma extract_urban_areas_nan_pixels_witness :
  exists g, extract_urban_areas [[NaN; Fin (5 # 10)]] [[Fin 1; NaN]]
              default_ndvi_threshold default_bui_threshold = Ok g /\
    get 0%Z g 0 0 = 0%Z /\ get 0%Z g 0 1 = 2%Z.
Proof.
  destruct (extract_urban_areas_nan_pixels [[NaN; Fin (5 # 10)]] [[Fin 1; NaN]]
              default_ndvi_threshold default_bui_threshold
              ltac:(repeat constructor) ltac:(repeat constructor) eq_refl eq_refl)
    as (g & E & P).
  exists g. split; [exact E|]. split.
  - apply (proj1 (P 0 0 ltac:(cbn; lia) ltac:(cbn; lia))). reflexivity.
  - rewrite (proj2 (P 0 1 ltac:(cbn; lia) ltac:(cbn; lia)) eq_refl). reflexivity.
Defined.

(** ** X3 *)

(** X3: with the default thresholds (0.3 and 0.1) no rule overrides the
    urban rule: a pixel is urban (1) exactly when NDVI < 0.3 and BUI > 0.1,
    vegetation (2) exactly when NDVI > 0.4, water (3) exactly when
    NDVI < 0.1 and BUI < 0.05, and bare soil (4) exactly when NDVI < 0.2
    and BUI < 0.1 and the pixel is not water. *)
Theorem extract_urban_areas_default_classes ndvi bui :
  rect ndvi -> rect bui -> length bui = length ndvi -> width bui = width ndvi ->
  exists g, extract_urban_areas ndvi bui default_ndvi_threshold default_bui_threshold = Ok g /\
    forall i j, (i < length ndvi)%nat -> (j < width ndvi)%nat ->
      let n := get F0 ndvi i j in let b := get F0 bui i j in
      (get 0%Z g i j = 1%Z <-> flt n (Fin (3 # 10)) && fgt b (Fin (1 # 10)) = true) /\
      (get 0%Z g i j = 2%Z <-> fgt n (Fin (4 # 10)) = true) /\
      (get 0%Z g i j = 3%Z <-> flt n (Fin (1 # 10)) && flt b (Fin (5 # 100)) = true) /\
      (get 0%Z g i j = 4%Z <->
       flt n (Fin (2 # 10)) && flt b (Fin (1 # 10))
       && negb (flt n (Fin (1 # 10)) && flt b (Fin (5 # 100))) = true).
Proof.
  intros HR HR' Hl Hw. rewrite extract_urban_areas_tab by assumption.
  eexists; split; [reflexivity|].
  intros i j Hi Hj. rewrite get_tabulate by assumption. apply urban_class_default.
Qed.

Lemma extract_urban_areas_default_classes_witness :
  exists g, extract_urban_areas [[Fin (35 # 100); Fin (15 # 100)]] [[Fin 1; Fin (8 # 100)]]
              default_ndvi_threshold default_bui_threshold = Ok g /\
    get 0%Z g 0 0 <> 1%Z /\ get 0%Z g 0 1 = 4%Z.
Proof.
  destruct (extract_urban_areas_default_classes [[Fin (35 # 100); Fin (15 # 100)]]
              [[Fin 1; Fin (8 # 100)]]
              ltac:(repeat constructor) ltac:(repeat constructor) eq_refl eq_refl)
    as (g & E & P).
  exists g. split; [exact E|]. split.
  - intros H. apply (P 0 0 ltac:(cbn; lia) ltac:(cbn; lia)) in H. discriminate H.
  - apply (P 0 1 ltac:(cbn; lia) ltac:(cbn; lia)). reflexivity.
Defined.

(** ** X4 *)

(** X4: [extract_urban_areas] does not check shapes; its errors are
    numpy's.  For non-empty rasters it raises [ValueError] when an extent
    pair of NDVI and BUI is neither equal nor contains a 1, and
    [IndexError] when they broadcast to a shape other than the NDVI's
    (the first mask cannot index the NDVI-shaped output). *)
Theorem extract_urban_areas_shape_errors ndvi bui th bth :
  (0 < length ndvi)%nat -> (0 < length bui)%nat ->
  ((bcast_dim (length ndvi) (length bui) = None \/
    bcast_dim (width ndvi) (width bui) = None) ->
   extract_urban_areas ndvi bui th bth = Err ValueError) /\
  (forall h w, bcast_dim (length ndvi) (length bui) = Some h ->
   bcast_dim (width ndvi) (width bui) = Some w ->
   (h <> length ndvi \/ w <> width ndvi) ->
   extract_urban_areas ndvi bui th bth = Err IndexError).
Proof.
  intros HA HB.
  split; unfold extract_urban_areas, bin_op at 1; rewrite !length_scalar_op, !width_scalar_op.
  - intros [E|E]; rewrite E; [reflexivity|].
    destruct (bcast_dim (length ndvi) (length bui)); reflexivity.
  - intros h w Eh Ew Hne. rewrite Eh, Ew. cbn [bind].
    pose proof (bcast_dim_pos _ _ _ Eh HA HB) as Hh.
    unfold mask_assign at 1. rewrite length_tabulate, width_tabulate by exact Hh.
    rewrite length_scalar_op, width_scalar_op.
    destruct (Nat.eqb_spec h (length ndvi)), (Nat.eqb_spec w (width ndvi));
      try reflexivity; lia.
Qed.

Lemma extract_urban_areas_shape_errors_witness :
  extract_urban_areas [[F0; F0]] [[F0; F0]; [F0; F0]]
    default_ndvi_threshold default_bui_threshold = Err IndexError /\
  extract_urban_areas [[F0; F0]] [[F0; F0; F0]]
    default_ndvi_threshold default_bui_threshold = Err ValueError.
Proof.
  destruct (extract_urban_areas_shape_errors [[F0; F0]] [[F0; F0]; [F0; F0]]
              default_ndvi_threshold default_bui_threshold
              ltac:(cbn; lia) ltac:(cbn; lia)) as [_ P1].
  destruct (extract_urban_areas_shape_errors [[F0; F0]] [[F0; F0; F0]]
              default_ndvi_threshold default_bui_threshold
              ltac:(cbn; lia) ltac:(cbn; lia)) as [P2 _].
  split.
  - apply (P1 2 2); [reflexivity | reflexivity | left; discriminate].
  - apply P2. right. reflexivity.
Defined.

(** ** X5 *)

(** X5: the binary raster that [save_urban_areas] writes for the default
    extraction has 1 exactly where NDVI < 0.3 and BUI > 0.1, and every
    other pixel holds 0, the value it declares as [nodata]: non-urban
    pixels read as missing data. *)
Theorem save_urban_areas_default ndvi bui :
  rect ndvi -> rect bui -> length bui = length ndvi -> width bui = width ndvi ->
  exists g, extract_urban_areas ndvi bui default_ndvi_threshold default_bui_threshold = Ok g /\
    let s := save_urban_areas g in
    nodata s = 0%Z /\
    forall i j, (i < length ndvi)%nat -> (j < width ndvi)%nat ->
      get 0%Z (data s) i j =
        (if flt (get F0 ndvi i j) (Fin (3 # 10)) && fgt (get F0 bui i j) (Fin (1 # 10))
         then 1%Z else nodata s).
Proof.
  intros HR HR' Hl Hw. rewrite extract_urban_areas_tab by assumption.
  eexists; split; [reflexivity|]. cbv zeta. cbn [save_urban_areas data nodata].
  split; [reflexivity|]. intros i j Hi Hj.
  rewrite (get_scalar_op 0%Z) by (first [apply rect_tabulate | shape_pos; lia]).
  rewrite get_tabulate by assumption.
  destruct (urban_class_default (get F0 ndvi i j) (get F0 bui i j)) as [U _].
  destruct (Z.eqb_spec (urban_class (get F0 ndvi i j) (get F0 bui i j)
                          default_ndvi_threshold default_bui_threshold) 1) as [E|E].
  - apply U in E. now rewrite E.
  - destruct (flt _ _ && fgt _ _); [|reflexivity].
    exfalso. apply E, U. reflexivity.
Qed.

Lemma save_urban_areas_default_witness :
  exists g, extract_urban_areas [[Fin (2 # 10); Fin (5 # 10)]] [[Fin (2 # 10); Fin 1]]
              default_ndvi_threshold default_bui_threshold = Ok g /\
    get 0%Z (data (save_urban_areas g)) 0 0 = 1%Z /\
    get 0%Z (data (save_urban_areas g)) 0 1 = nodata (save_urban_areas g).
Proof.
  destruct (save_urban_areas_default [[Fin (2 # 10); Fin (5 # 10)]] [[Fin (2 # 10); Fin 1]]
              ltac:(repeat constructor) ltac:(repeat constructor) eq_refl eq_refl)
    as (g & E & _ & P).
  exists g. split; [exact E|].
  rewrite (P 0 0 ltac:(cbn; lia) ltac:(cbn; lia)), (P 0 1 ltac:(cbn; lia) ltac:(cbn; lia)).
  split; reflexivity.
Defined.

(** * Pixel statistics *)

(** ** np.unique *)

Lemma In_insert_sorted x l z : In z (insert_sorted x l) <-> z = x \/ In z l.
Proof.
  induction l as [|y l IH]; cbn; [intuition congruence|].
  destruct (Z.leb x y); cbn; rewrite ?IH; intuition congruence.
Qed.

Lemma In_sort_Z l z : In z (sort_Z l) <-> In z l.
Proof.
  induction l as [|x l IH]; cbn; [tauto|].
  rewrite In_insert_sorted, IH. intuition congruence.
Qed.

Lemma In_np_unique l z : In z (np_unique l) <-> In z l.
Proof. unfold np_unique. rewrite nodup_In. apply In_sort_Z. Qed.

Lemma NoDup_np_unique l : NoDup (np_unique l).
Proof. apply NoDup_nodup. Qed.

Lemma list_sum_cons_nat a l : list_sum (a :: l) = a + list_sum l.
Proof. reflexivity. Qed.

Lemma list_sum_map_add {T} (f g : T -> nat) D :
  list_sum (map (fun v => f v + g v) D) = list_sum (map f D) + list_sum (map g D).
Proof.
  induction D as [|d D IH]; [reflexivity|].
  cbn [map]. rewrite !list_sum_cons_nat, IH. lia.
Qed.

Lemma list_sum_indicator a D :
  NoDup D ->
  list_sum (map (fun v => if Z.eq_dec a v then 1 else 0) D) =
  (if in_dec Z.eq_dec a D then 1 else 0).
Proof.
  induction D as [|d D IH]; intros ND; [reflexivity|].
  inversion ND as [|? ? Hd ND']; subst. cbn [map]. rewrite list_sum_cons_nat, (IH ND').
  destruct (Z.eq_dec a d) as [<-|Ne].
  - destruct (in_dec Z.eq_dec a D); [contradiction|].
    destruct (in_dec Z.eq_dec a (a :: D)) as [_|N]; [reflexivity|].
    exfalso. apply N. left. reflexivity.
  - destruct (in_dec Z.eq_dec a D) as [I|N];
      destruct (in_dec Z.eq_dec a (d :: D)) as [I'|N']; try reflexivity.
    + exfalso. apply N'. right. exact I.
    + destruct I' as [E|I']; [congruence | contradiction].
Qed.

(** The counts over a duplicate-free list holding every value add up to
    the number of values. *)
Lemma list_sum_counts (l D : list Z) :
  NoDup D -> (forall x, In x l -> In x D) ->
  list_sum (map (count_occ Z.eq_dec l) D) = length l.
Proof.
  intros ND. induction l as [|a l IH]; intros Hin.
  - cbn. clear. induction D as [|d D IH]; [reflexivity|].
    cbn [map]. rewrite list_sum_cons_nat, IH. reflexivity.
  - transitivity (list_sum (map (fun v => (if Z.eq_dec a v then 1 else 0)
                                          + count_occ Z.eq_dec l v) D)).
    + f_equal. apply map_ext. intros v. cbn. destruct (Z.eq_dec a v); lia.
    + rewrite list_sum_map_add, list_sum_indicator by exact ND.
      rewrite IH by (intros x Hx; apply Hin; right; exact Hx).
      destruct (in_dec Z.eq_dec a D) as [_|N].
      * reflexivity.
      * exfalso. apply N, Hin. left. reflexivity.
Qed.

Lemma unique_counts_total l : list_sum (map snd (unique_counts l)) = length l.
Proof.
  unfold unique_counts. rewrite map_map. cbn.
  apply list_sum_counts; [apply NoDup_np_unique|].
  intros x Hx. apply In_np_unique, Hx.
Qed.





(** ** X6 *)




(** ** X7 *)

(** X7: for a mask without pixels, [calculate_urban_statistics] reports 0
    urban pixels and the urban percentage [0 / 0 = NaN]. *)
Theorem calculate_urban_statistics_empty mask a :
  concat mask = [] ->
  let '(u, pct, _) := calculate_urban_statistics mask a in
  u = 0%Z /\ pct = NaN.
Proof.
  intros E. unfold calculate_urban_statistics. rewrite E. cbn. split; reflexivity.
Qed.

Lemma calculate_urban_statistics_empty_witness :
  snd (fst (calculate_urban_statistics [[]; []] 100)) = NaN.
Proof.
  pose proof (calculate_urban_statistics_empty [[]; []] 100 eq_refl) as H.
  destruct (calculate_urban_statistics [[]; []] 100) as [[u pct] area].
  destruct H as [_ H]. exact H.
Defined.

(** ** Change statistics *)

Lemma In_concat_tabulate {T} h w (g : nat -> nat -> T) x :
  In x (concat (tabulate h w g)) <->
  exists i j, (i < h)%nat /\ (j < w)%nat /\ x = g i j.
Proof.
  unfold tabulate. rewrite in_concat. split.
  - intros (r & Hr & Hx). apply in_map_iff in Hr as (i & <- & Hi).
    apply in_map_iff in Hx as (j & <- & Hj). apply in_seq in Hi, Hj.
    exists i, j. split; [lia|]. split; [lia | reflexivity].
  - intros (i & j & Hi & Hj & ->). exists (map (fun j => g i j) (seq 0 w)). split.
    + apply in_map_iff. exists i. split; [reflexivity | apply in_seq; lia].
    + apply in_map_iff. exists j. split; [reflexivity | apply in_seq; lia].
Qed.

Lemma length_concat_tabulate {T} h w (g : nat -> nat -> T) :
  length (concat (tabulate h w g)) = (h * w)%nat.
Proof.
  unfold tabulate. rewrite <- (length_seq h 0) at 2. generalize (seq 0 h) as L.
  induction L as [|i L IH]; [reflexivity|].
  cbn [map concat]. rewrite length_app, IH, length_map, length_seq. cbn. lia.
Qed.

Lemma concat_tabulate_map {T U} h w (g : nat -> nat -> T) (f : T -> U) :
  concat (tabulate h w (fun i j => f (g i j))) = map f (concat (tabulate h w g)).
Proof.
  unfold tabulate. rewrite concat_map, map_map. f_equal.
  apply map_ext. intros i. now rewrite map_map.
Qed.

Lemma sumZ_indicator l :
  fold_right Z.add 0%Z (map (fun b : bool => if b then 1%Z else 0%Z) l) =
  Z.of_nat (count_true l).
Proof.
  induction l as [|b l IH]; [reflexivity|].
  cbn [map fold_right]. rewrite IH, count_true_cons. destruct b; lia.
Qed.

Lemma count_true_negb l : (count_true l + count_true (map negb l))%nat = length l.
Proof.
  induction l as [|b l IH]; [reflexivity|].
  cbn [map length]. rewrite !count_true_cons. destruct b; cbn; lia.
Qed.

Lemma fold_left_nan (f : fv -> fv -> fv) :
  (forall y, f NaN y = NaN) -> (forall x, f x NaN = NaN) ->
  forall t x, (x = NaN \/ In NaN t) -> fold_left f t x = NaN.
Proof.
  intros Hl Hr t. induction t as [|y t IH]; intros x H; cbn [fold_left].
  - destruct H as [->|[]]. reflexivity.
  - apply IH. destruct H as [->|[->|H]].
    + left. apply Hl.
    + left. apply Hr.
    + right. exact H.
Qed.

Lemma compare_classifications_tab A B :
  rect A -> length A = length B -> width A = width B ->
  compare_classifications A B =
    Ok {| data := tabulate (length A) (width A)
                    (fun i j => if Z.eqb (get 0%Z A i j) (get 0%Z B i j) then 0%Z else 1%Z);
          nodata := 0%Z |}.
Proof.
  intros HR Hl Hw.
  destruct (Nat.eq_dec (length A) 0) as [E|Hpos].
  { apply length_zero_iff_nil in E. subst A.
    symmetry in Hl. apply length_zero_iff_nil in Hl. subst B. reflexivity. }
  unfold compare_classifications. repeat np_step. do 2 f_equal.
  shape_pos. apply tabulate_ext. intros i j Hi Hj. get_simpl.
  destruct (Z.eqb (get 0%Z A i j) (get 0%Z B i j)); reflexivity.
Qed.

Lemma classify_changes_tab diff t :
  rect diff ->
  classify_changes diff t =
    Ok (tabulate (length diff) (width diff)
          (fun i j =>
             let d := get F0 diff i j in
             if fge d (fneg t) && fle d t then 3%Z
             else if fgt d t then 2%Z
             else if flt d (fneg t) then 1%Z else 0%Z)).
Proof.
  intros HR.
  destruct (Nat.eq_dec (length diff) 0) as [E|Hpos].
  { apply length_zero_iff_nil in E. subst diff. reflexivity. }
  unfold classify_changes. repeat np_step. f_equal.
  shape_pos. apply tabulate_ext. intros i j Hi Hj. get_simpl. reflexivity.
Qed.

Lemma calculate_change_statistics_ok d c cm :
  concat d <> [] ->
  exists s, calculate_change_statistics d c cm = Ok s /\
    change_counts s =
      map (fun p => (fst p, snd p, percent (Z.of_nat (snd p)) (Z.of_nat (length (concat c)))))
          (unique_counts (concat c)) /\
    change_total s = length (concat c) /\
    class_changes s =
      option_map
        (fun m => (fold_right Z.add 0%Z (concat m),
                   (Z.of_nat (length (concat m)) - fold_right Z.add 0%Z (concat m))%Z,
                   percent (fold_right Z.add 0%Z (concat m)) (Z.of_nat (length (concat m)))))
        cm.
Proof.
  intros Hne. unfold calculate_change_statistics.
  destruct (concat d) as [|x t]; [contradiction|]. cbn [np_min np_max bind].
  eexists; split; [reflexivity|]. cbn [change_counts change_total class_changes].
  rewrite unique_counts_total. split; [reflexivity|]. split; reflexivity.
Qed.

(** ** X8 *)

(** X8: when two label maps of one shape are compared, the "changed
    pixels" that [calculate_change_statistics] reports (the sum of the
    transition matrix) is the number of positions where the labels differ,
    and the "unchanged pixels" is the number of positions where they are
    equal. *)
Theorem change_statistics_classification_changes ndvi_diff changes A B :
  concat ndvi_diff <> [] -> rect A -> length A = length B -> width A = width B ->
  exists cm s, compare_classifications A B = Ok cm /\
    calculate_change_statistics ndvi_diff changes (Some (data cm)) = Ok s /\
    exists pct, class_changes s =
      Some (Z.of_nat (count_cells (length A) (width A)
                        (fun i j => negb (Z.eqb (get 0%Z A i j) (get 0%Z B i j)))),
            Z.of_nat (count_cells (length A) (width A)
                        (fun i j => Z.eqb (get 0%Z A i j) (get 0%Z B i j))),
            pct).
Proof.
  intros Hne HR Hl Hw. rewrite compare_classifications_tab by assumption.
  destruct (calculate_change_statistics_ok ndvi_diff changes
              (Some (tabulate (length A) (width A)
                       (fun i j => if Z.eqb (get 0%Z A i j) (get 0%Z B i j) then 0%Z else 1%Z)))
              Hne) as (s & E & _ & _ & C).
  eexists. exists s. split; [reflexivity|]. split; [exact E|].
  rewrite C. cbn [option_map]. eexists. f_equal.
  set (p := fun i j => negb (Z.eqb (get 0%Z A i j) (get 0%Z B i j))).
  assert (E1 : tabulate (length A) (width A)
                 (fun i j => if Z.eqb (get 0%Z A i j) (get 0%Z B i j) then 0%Z else 1%Z) =
               tabulate (length A) (width A)
                 (fun i j => (fun b : bool => if b then 1%Z else 0%Z) (p i j))).
  { apply tabulate_ext. intros i j _ _. unfold p.
    destruct (Z.eqb _ _); reflexivity. }
  assert (E2 : tabulate (length A) (width A) (fun i j => Z.eqb (get 0%Z A i j) (get 0%Z B i j)) =
               tabulate (length A) (width A) (fun i j => negb (p i j))).
  { apply tabulate_ext. intros i j _ _. unfold p. now rewrite negb_involutive. }
  assert (E3 : concat (tabulate (length A) (width A) (fun i j => if p i j then 1%Z else 0%Z)) =
               map (fun b : bool => if b then 1%Z else 0%Z)
                 (concat (tabulate (length A) (width A) p)))
    by exact (concat_tabulate_map _ _ p (fun b : bool => if b then 1%Z else 0%Z)).
  assert (E4 : concat (tabulate (length A) (width A) (fun i j => negb (p i j))) =
               map negb (concat (tabulate (length A) (width A) p)))
    by exact (concat_tabulate_map _ _ p negb).
  unfold count_cells. rewrite E1, E2. cbv beta. rewrite E3, E4, sumZ_indicator, length_map.
  pose proof (count_true_negb (concat (tabulate (length A) (width A) p))) as N.
  assert (Hu : (Z.of_nat (length (concat (tabulate (length A) (width A) p)))
                - Z.of_nat (count_true (concat (tabulate (length A) (width A) p))))%Z =
               Z.of_nat (count_true (map negb (concat (tabulate (length A) (width A) p)))))
    by lia.
  rewrite Hu. reflexivity.
Qed.

Lemma change_statistics_classification_changes_witness :
  exists cm s, compare_classifications [[1; 2]; [3; 4]]%Z [[1; 5]; [3; 6]]%Z = Ok cm /\
    calculate_change_statistics [[F0]] [[3]]%Z (Some (data cm)) = Ok s /\
    exists pct, class_changes s = Some (2%Z, 2%Z, pct).
Proof.
  destruct (change_statistics_classification_changes [[F0]] [[3]]%Z
              [[1; 2]; [3; 4]]%Z [[1; 5]; [3; 6]]%Z ltac:(discriminate)
              ltac:(repeat constructor) eq_refl eq_refl) as (cm & s & E1 & E2 & pct & C).
  exists cm, s. split; [exact E1|]. split; [exact E2|].
  exists pct. rewrite C. reflexivity.
Defined.

(** ** X9 *)

(** X9: on an NDVI difference raster without pixels,
    [calculate_change_statistics] raises [ValueError] ([np.min] of an empty
    array), before any count is made. *)
Theorem change_statistics_empty_diff ndvi_diff changes change_matrix :
  concat ndvi_diff = [] ->
  calculate_change_statistics ndvi_diff changes change_matrix = Err ValueError.
Proof. intros E. unfold calculate_change_statistics. now rewrite E. Qed.

Lemma change_statistics_empty_diff_witness :
  calculate_change_statistics [] [[1]]%Z None = Err ValueError.
Proof. apply change_statistics_empty_diff. reflexivity. Defined.

(** ** X10 *)

(** X10: one NaN pixel in the NDVI difference makes the reported minimum,
    maximum and mean all NaN ([np.min], [np.max] and [np.mean] propagate
    NaN). *)
Theorem change_statistics_nan_diff ndvi_diff changes change_matrix :
  In NaN (concat ndvi_diff) ->
  exists s, calculate_change_statistics ndvi_diff changes change_matrix = Ok s /\
    diff_min s = NaN /\ diff_max s = NaN /\ diff_mean s = NaN.
Proof.
  intros Hin. unfold calculate_change_statistics.
  destruct (concat ndvi_diff) as [|x t] eqn:E; [destruct Hin|]. cbn [np_min np_max bind].
  eexists; split; [reflexivity|]. cbn [diff_min diff_max diff_mean].
  assert (H : x = NaN \/ In NaN t) by (destruct Hin as [<-|H]; [left | right]; easy).
  split; [|split].
  - apply fold_left_nan; [reflexivity | | exact H].
    intros y. unfold fmin2. now rewrite orb_true_r.
  - apply fold_left_nan; [reflexivity | | exact H].
    intros y. unfold fmax2. now rewrite orb_true_r.
  - unfold np_mean. cbn [fold_left].
    rewrite (fold_left_nan fadd); [reflexivity | reflexivity | |].
    + intros y. destruct y as [| [|] |]; reflexivity.
    + destruct H as [->|H]; [left; reflexivity | right; exact H].
Qed.

Lemma change_statistics_nan_diff_witness :
  exists s, calculate_change_statistics [[Fin 1; NaN]] [[3; 0]]%Z None = Ok s /\
    diff_min s = NaN.
Proof.
  destruct (change_statistics_nan_diff [[Fin 1; NaN]] [[3; 0]]%Z None
              ltac:(cbn; auto)) as (s & E & P & _).
  exists s. split; [exact E | exact P].
Defined.

(** ** X11 *)

(** X11: for the change classification of a non-empty well-formed
    difference raster and a threshold that is not NaN, the counts listed by
    [calculate_change_statistics] add up to the number of pixels; when no
    difference is NaN the listed classes are among 1, 2 and 3, and a NaN
    difference makes class 0 appear with a positive count. *)
Theorem change_statistics_change_classes diff t cm :
  rect diff -> is_nan t = false -> concat diff <> [] ->
  exists g s, classify_changes diff t = Ok g /\
    calculate_change_statistics diff g cm = Ok s /\
    change_total s = (length diff * width diff)%nat /\
    ((forall i j, (i < length diff)%nat -> (j < width diff)%nat ->
      is_nan (get F0 diff i j) = false) ->
     forall c k p, In (c, k, p) (change_counts s) -> c = 1%Z \/ c = 2%Z \/ c = 3%Z) /\
    (forall i j, (i < length diff)%nat -> (j < width diff)%nat ->
     is_nan (get F0 diff i j) = true ->
     exists k p, In (0%Z, k, p) (change_counts s) /\ (0 < k)%nat).
Proof.
  intros HR Ht Hne. rewrite (classify_changes_tab diff t HR).
  set (g := tabulate (length diff) (width diff) _).
  destruct (calculate_change_statistics_ok diff g cm Hne) as (s & E & Cc & Ct & _).
  exists g, s. split; [reflexivity|]. split; [exact E|].
  split; [rewrite Ct; apply length_concat_tabulate|]. split.
  - intros Hnan c k p Hin. rewrite Cc in Hin.
    apply in_map_iff in Hin as ([v n] & Ev & Hin). cbn in Ev. injection Ev as -> _ _.
    unfold unique_counts in Hin. apply in_map_iff in Hin as (v & Ev & Hin).
    injection Ev as -> _. rewrite In_np_unique in Hin.
    apply In_concat_tabulate in Hin as (i & j & Hi & Hj & ->).
    exact (classify_pixel_range _ _ Ht (Hnan i j Hi Hj)).
  - intros i j Hi Hj Hnan.
    assert (H0 : In 0%Z (concat g)).
    { apply In_concat_tabulate. exists i, j. split; [exact Hi|]. split; [exact Hj|].
      cbv zeta. destruct (get F0 diff i j); try discriminate. destruct t; reflexivity. }
    exists (count_occ Z.eq_dec (concat g) 0%Z). eexists. split.
    + rewrite Cc. apply in_map_iff. exists (0%Z, count_occ Z.eq_dec (concat g) 0%Z).
      split; [reflexivity|]. unfold unique_counts. apply in_map_iff.
      exists 0%Z. split; [reflexivity|]. apply In_np_unique, H0.
    + apply count_occ_In, H0.
Qed.

Lemma change_statistics_change_classes_witness :
  exists g s, classify_changes [[NaN; Fin 1]] default_threshold = Ok g /\
    calculate_change_statistics [[NaN; Fin 1]] g None = Ok s /\
    exists k p, In (0%Z, k, p) (change_counts s) /\ (0 < k)%nat.
Proof.
  destruct (change_statistics_change_classes [[NaN; Fin 1]] default_threshold None
              ltac:(repeat constructor) eq_refl ltac:(discriminate))
    as (g & s & E1 & E2 & _ & _ & P).
  exists g, s. split; [exact E1|]. split; [exact E2|].
  apply (P 0 0 ltac:(cbn; lia) ltac:(cbn; lia)). reflexivity.
Defined.

(** * Land-cover classification: data preparation and label map *)

(** ** X12 *)

(** X12: [prepare_classification_data] hands K-means one feature vector
    per valid pixel, each with one value per band and none of them NaN or
    exactly zero; the number of vectors is the number of true entries of
    [valid_pixels], which has one entry per pixel of the window. *)
Theorem prepare_classification_data_valid bands s :
  let p := prepare_classification_data bands s in
  length (valid_data p) = count_true (valid_pixels p) /\
  length (valid_pixels p) = (fst (original_shape p) * snd (original_shape p))%nat /\
  Forall (fun px => length px = length bands /\
                    Forall (fun v => is_nan v = false /\ feq v F0 = false) px)
         (valid_data p).
Proof.
  unfold prepare_classification_data. cbv zeta.
  cbn [valid_data valid_pixels original_shape fst snd].
  split; [apply length_filter_count|].
  split; [unfold pixel_vectors; now rewrite !length_map, length_seq|].
  apply Forall_forall. intros px Hin. apply filter_In in Hin as [Hin Hv].
  unfold pixel_vectors in Hin. apply in_map_iff in Hin as (k & <- & _). split.
  - rewrite length_map. unfold classification_stack. apply length_map.
  - apply Forall_forall. intros v Hvin.
    assert (Hf : is_nan v || feq v F0 = false).
    { destruct (is_nan v || feq v F0) eqn:Ef; [|reflexivity].
      unfold valid_pixel in Hv. apply negb_true_iff in Hv.
      rewrite <- Hv. symmetry. apply existsb_exists. exists v. split; assumption. }
    apply orb_false_iff in Hf. exact Hf.
Qed.

(** ** X13 *)

(** X13: for non-negative grid extents and window size, the window of
    [prepare_classification_data] is clamped inside the grid on both axes:
    its offsets are non-negative, its extents lie between 0 and the window
    size, and it ends within the grid. *)
Theorem classification_window_inside (height width s : Z) :
  (0 <= height)%Z -> (0 <= width)%Z -> (0 <= s)%Z ->
  let '(x1, y1, ww, hh) := classification_window height width s in
  (0 <= x1 /\ 0 <= ww <= s /\ x1 + ww <= width /\
   0 <= y1 /\ 0 <= hh <= s /\ y1 + hh <= height)%Z.
Proof.
  intros Hh Hw Hs. unfold classification_window.
  pose proof (Z.div_mod height 2 ltac:(lia)) as Dh.
  pose proof (Z.mod_pos_bound height 2 ltac:(lia)) as Mh.
  pose proof (Z.div_mod width 2 ltac:(lia)) as Dw.
  pose proof (Z.mod_pos_bound width 2 ltac:(lia)) as Mw.
  pose proof (Z.div_mod s 2 ltac:(lia)) as Ds.
  pose proof (Z.mod_pos_bound s 2 ltac:(lia)) as Ms.
  lia.
Qed.

Lemma classification_window_inside_witness :
  let '(x1, y1, ww, hh) := classification_window 3 250 100 in
  (0 <= x1 /\ 0 <= ww <= 100 /\ x1 + ww <= 250 /\
   0 <= y1 /\ 0 <= hh <= 100 /\ y1 + hh <= 3)%Z.
Proof. exact (classification_window_inside 3 250 100 ltac:(lia) ltac:(lia) ltac:(lia)). Defined.

(** ** X14 *)

(** X14: with one [valid_pixels] entry per pixel, [create_classification_map]
    raises [ValueError] when the number of labels is neither the number of
    valid pixels nor 1 (numpy cannot assign or broadcast the labels over
    the mask). *)
Theorem create_classification_map_label_count_error labels valid h w :
  length valid = (h * w)%nat ->
  length labels <> count_true valid -> length labels <> 1%nat ->
  create_classification_map labels valid (h, w) = Err ValueError.
Proof.
  intros Hlen Hc H1.
  unfold create_classification_map, masked_assign. cbv beta iota zeta.
  rewrite repeat_length, Hlen, Nat.eqb_refl. cbn [negb].
  rewrite length_map. change (count_occ Bool.bool_dec valid true) with (count_true valid).
  destruct (Nat.eqb_spec (length labels) (count_true valid)) as [E|E]; [contradiction|].
  destruct labels as [|l [|l' r]]; [reflexivity | cbn in H1; lia | reflexivity].
Qed.

Lemma create_classification_map_label_count_error_witness :
  create_classification_map [0; 1; 2]%Z [true; false] (1, 2)%nat = Err ValueError.
Proof.
  apply create_classification_map_label_count_error; cbn; lia.
Defined.

(** ** X15 *)

(** X15: a single label is broadcast by [create_classification_map]: with
    one entry of [valid_pixels] per pixel, every valid pixel gets that
    label plus one (modulo 256) and every other pixel 0, whatever the
    number of valid pixels. *)
Theorem create_classification_map_single_label l valid h w :
  length valid = (h * w)%nat ->
  exists out, create_classification_map [l] valid (h, w) = Ok out /\
    forall i j, (i < h)%nat -> (j < w)%nat ->
      get 0%Z (data out) i j =
        (if nth (i * w + j) valid false then to_uint8 (l + 1) else 0%Z).
Proof.
  intros Hlen.
  assert (M : forall full, length full = length valid ->
                masked_assign valid [to_uint8 (l + 1)] full =
                Ok (scatter valid (repeat (to_uint8 (l + 1)) (count_true valid)) full)).
  { intros full Hf. unfold masked_assign. cbv zeta.
    rewrite Hf, Nat.eqb_refl. cbn [negb].
    change (count_occ Bool.bool_dec valid true) with (count_true valid). cbn [length].
    destruct (Nat.eqb_spec 1 (count_true valid)) as [E|E]; [rewrite <- E|]; reflexivity. }
  unfold create_classification_map. cbv beta iota zeta. cbn [map].
  rewrite M by (rewrite repeat_length; symmetry; exact Hlen). cbn [bind].
  eexists; split; [reflexivity|]; cbn [data].
  intros i j Hi Hj. unfold reshape. rewrite get_tabulate by assumption.
  assert (Hk : (i * w + j < length valid)%nat) by (rewrite Hlen; nia).
  rewrite <- Hlen. rewrite nth_scatter; [| rewrite repeat_length; reflexivity | exact Hk].
  destruct (nth (i * w + j) valid false) eqn:Ev; [|reflexivity].
  apply nth_repeat_lt. now apply count_true_firstn_lt.
Qed.

Lemma create_classification_map_single_label_witness :
  exists out, create_classification_map [4]%Z [true; false; true] (1, 3)%nat = Ok out /\
    get 0%Z (data out) 0 2 = 5%Z.
Proof.
  destruct (create_classification_map_single_label 4 [true; false; true] 1 3 eq_refl)
    as [out [E P]].
  exists out. split; [exact E|]. rewrite (P 0 2 ltac:(lia) ltac:(lia)). reflexivity.
Defined.

(** * Spectral indices: broadcasting and bounds *)

Lemma bin_op_some {A B C} (da : A) (db : B) (f : A -> B -> C) X Y h w :
  bcast_dim (length X) (length Y) = Some h -> bcast_dim (width X) (width Y) = Some w ->
  bin_op da db f X Y = Ok (tabulate h w (fun i j => f (bget da X i j) (bget db Y i j))).
Proof. intros Eh Ew. unfold bin_op. now rewrite Eh, Ew. Qed.

(** ** X16 *)

(** X16: [calculate_ndvi] does not check that the bands have one shape:
    it raises [ValueError] when an extent pair of NIR and red is neither
    equal nor contains a 1, and otherwise returns over the broadcast shape
    the normalized difference of the broadcast NIR and red values. *)
Theorem calculate_ndvi_broadcast red nir :
  ((bcast_dim (length nir) (length red) = None \/
    bcast_dim (width nir) (width red) = None) ->
   calculate_ndvi red nir = Err ValueError) /\
  (forall h w, bcast_dim (length nir) (length red) = Some h ->
   bcast_dim (width nir) (width red) = Some w ->
   exists out, calculate_ndvi red nir = Ok out /\ length (data out) = h /\
     forall i j, (i < h)%nat -> (j < w)%nat ->
       get F0 (data out) i j = nd_spec (bget F0 nir i j) (bget F0 red i j)).
Proof.
  split.
  - unfold calculate_ndvi, bin_op at 1. intros [E|E]; rewrite E; [reflexivity|].
    destruct (bcast_dim (length nir) (length red)); reflexivity.
  - intros h w Eh Ew. unfold calculate_ndvi.
    rewrite (bin_op_some F0 F0 fadd nir red h w Eh Ew),
            (bin_op_some F0 F0 fsub nir red h w Eh Ew).
    cbn [bind].
    destruct h as [|h].
    { eexists; split; [reflexivity|]. split; [reflexivity|]. intros; lia. }
    repeat np_step.
    eexists; split; [reflexivity|]; cbn [data].
    split; [shape_pos; reflexivity|].
    intros i j Hi Hj. get_simpl. unfold nd_spec, fne.
    destruct (feq _ F0); reflexivity.
Qed.

Lemma calculate_ndvi_broadcast_witness :
  exists out, calculate_ndvi [[Fin 1]] [[Fin 3; Fin 1]] = Ok out /\
    get F0 (data out) 0 0 = Fin (2 # 4).
Proof.
  destruct (proj2 (calculate_ndvi_broadcast [[Fin 1]] [[Fin 3; Fin 1]]) 1 2 eq_refl eq_refl)
    as (out & E & _ & P).
  exists out. split; [exact E|]. rewrite (P 0 0 ltac:(lia) ltac:(lia)). reflexivity.
Defined.

(** ** X17 *)

(** X17: on bands of one shape, every built-up-index pixel whose three
    band values are finite and non-negative is a finite number in
    [[-2, 2]] (the difference of two indices in [[-1, 1]]). *)
Theorem built_up_index_bounded red nir swir :
  length red = length nir -> width red = width nir ->
  length swir = length nir -> width swir = width nir ->
  exists bui ndvi ndbi, calculate_built_up_index red nir swir = Ok (bui, ndvi, ndbi) /\
    forall i j (r n s : Q), (i < length nir)%nat -> (j < width nir)%nat ->
      get F0 red i j = Fin r -> get F0 nir i j = Fin n -> get F0 swir i j = Fin s ->
      (0 <= r)%Q -> (0 <= n)%Q -> (0 <= s)%Q ->
      exists q, get F0 (data bui) i j = Fin q /\ (-2 <= q <= 2)%Q.
Proof.
  intros Hl Hw Hl' Hw'.
  destruct (calculate_built_up_index_pixels red nir swir Hl Hw Hl' Hw')
    as (bui & ndvi & ndbi & E & _ & P).
  exists bui, ndvi, ndbi. split; [exact E|].
  intros i j r n s Hi Hj Er En Es Hr Hn Hs.
  destruct (P i j Hi Hj) as (_ & _ & P3). rewrite P3, Er, En, Es.
  destruct (nd_spec_bounded s n Hs Hn) as (q1 & E1 & B1).
  destruct (nd_spec_bounded n r Hn Hr) as (q2 & E2 & B2).
  rewrite E1, E2. exists (q1 + - q2)%Q. split; [reflexivity | lra].
Qed.

Lemma built_up_index_bounded_witness :
  exists bui ndvi ndbi,
    calculate_built_up_index [[Fin 3]] [[Fin 1]] [[Fin 3]] = Ok (bui, ndvi, ndbi) /\
    exists q, get F0 (data bui) 0 0 = Fin q /\ (-2 <= q <= 2)%Q.
Proof.
  destruct (built_up_index_bounded [[Fin 3]] [[Fin 1]] [[Fin 3]] eq_refl eq_refl eq_refl eq_refl)
    as (bui & ndvi & ndbi & E & P).
  exists bui, ndvi, ndbi. split; [exact E|].
  apply (P 0 0 3%Q 1%Q 3%Q); cbn; try lia; try reflexivity; lra.
Defined.

(** * Change detection: negative threshold *)

Lemma classify_pixel_negative_threshold d t :
  flt t F0 = true ->
  (if fge d (fneg t) && fle d t then 3
   else if fgt d t then 2
   else if flt d (fneg t) then 1 else 0)%Z =
  (if is_nan d then 0 else if fgt d t then 2 else 1)%Z.
Proof.
  unfold fge, fgt, fle.
  fv_cases d; fv_cases t; fvsimpl; intros H; try discriminate; qbool; qfinish.
Qed.

(** ** X18 *)

(** X18: with a negative threshold [t] the three masks of
    [classify_changes] no longer partition the values: no pixel is
    no-change (3); a non-NaN difference above [t] is increase (2), even a
    zero difference, and any other non-NaN difference is decrease (1). *)
Theorem classify_changes_negative_threshold diff t :
  rect diff -> flt t F0 = true ->
  exists g, classify_changes diff t = Ok g /\
    forall i j, (i < length diff)%nat -> (j < width diff)%nat ->
      let d := get F0 diff i j in
      get 0%Z g i j <> 3%Z /\
      (is_nan d = false -> fgt d t = true -> get 0%Z g i j = 2%Z) /\
      (is_nan d = false -> fgt d t = false -> get 0%Z g i j = 1%Z).
Proof.
  intros HR Ht. rewrite (classify_changes_tab diff t HR).
  eexists; split; [reflexivity|].
  intros i j Hi Hj. rewrite get_tabulate by assumption. cbv zeta.
  rewrite (classify_pixel_negative_threshold _ _ Ht).
  destruct (is_nan (get F0 diff i j)), (fgt (get F0 diff i j) t);
    split; try discriminate; split; intros; congruence.
Qed.

Lemma classify_changes_negative_threshold_witness :
  exists g, classify_changes [[Fin 0; Fin (-1)]] (Fin (-1 # 10)) = Ok g /\
    get 0%Z g 0 0 = 2%Z /\ get 0%Z g 0 1 = 1%Z.
Proof.
  destruct (classify_changes_negative_threshold [[Fin 0; Fin (-1)]] (Fin (-1 # 10))
              ltac:(repeat constructor) eq_refl) as [g [E P]].
  exists g. split; [exact E|]. split.
  - apply (proj1 (proj2 (P 0 0 ltac:(cbn; lia) ltac:(cbn; lia)))); reflexivity.
  - apply (proj2 (proj2 (P 0 1 ltac:(cbn; lia) ltac:(cbn; lia)))); reflexivity.
Defined.

(** ** X20 *)

(** X20: [create_classification_map] raises [IndexError] when
    [valid_pixels] does not have one entry per pixel of [original_shape]
    (numpy checks the boolean mask against [full_map] before any label is
    assigned), whatever the labels. *)
Theorem create_classification_map_mask_size_error labels valid h w :
  length valid <> (h * w)%nat ->
  create_classification_map labels valid (h, w) = Err IndexError.
Proof.
  intros Hlen. unfold create_classification_map, masked_assign. cbv beta iota zeta.
  rewrite repeat_length.
  destruct (Nat.eqb_spec (length valid) (h * w)) as [E|E]; [contradiction|].
  reflexivity.
Qed.

Lemma create_classification_map_mask_size_error_witness :
  create_classification_map [0; 1; 2]%Z [true; false] (1, 3)%nat = Err IndexError.
Proof.
  apply create_classification_map_mask_size_error; cbn; lia.
Defined.

(** ** X21 *)

(** X21: the urban area is computed from an [np.int64] product that wraps:
    two urban pixels of [2^62] m2 each give the area [-2^63 / 10^6] km2, a
    negative area. *)
Theorem calculate_urban_statistics_area_wraps :
  let '(u, _, area) := calculate_urban_statistics [[1; 1]]%Z (2 ^ 62) in
  u = 2%Z /\ area = Fin (inject_Z (- 2 ^ 63)%Z / 1000000)%Q /\
  (inject_Z (- 2 ^ 63)%Z / 1000000 < 0)%Q.
Proof. vm_compute. repeat split; reflexivity. Qed.
